(** * nface: the Reddit API client of graw (src/nface/nface.go)

    A shallow embedding of package [nface] and the properties of its
    request building, transport and authentication paths.

    Go pointers that the code compares with nil or dereferences are options
    ([*url.Values], [*http.Request], [*http.Client], [*data.UserAgent]) or
    locations in a store ([*Client], which [oauth] mutates in place).  A nil
    dereference is a panic, kept apart from a returned [error].  Calls that
    leave the process (the HTTP round trip, the token exchange) and the
    handling of the response body are recorded in a log, so that what reached
    the network can be stated. *)

From Stdlib Require Import ZArith Ascii String DecimalString.
From stdpp Require Import gmap strings list sorting.

(** ** Panics and returned errors *)

Inductive panic : Type :=
  | NilDereference.

Inductive outcome (A : Type) : Type :=
  | Returned (a : A)
  | Panicked (p : panic).
Arguments Returned {A} a.
Arguments Panicked {A} p.

(** A Go [error] value that is not nil.  [errorString] is what [fmt.Errorf]
    builds; the other constructors are the errors handed over by the imported
    packages, each with its message ([err.Error()]). *)
Inductive error : Type :=
  | errorString (msg : string)
  | NewRequestError (msg : string)
  | ClientDoError (msg : string)
  | TokenError (msg : string)
  | UnmarshalError (msg : string).

Definition fmt_Errorf (msg : string) : error := errorString msg.

(** [%v] of an [int]: signed decimal. *)
Definition fmt_int (n : Z) : string := NilZero.string_of_int (Z.to_int n).

(** ** Imported packages

    Code outside this repository is taken as a parameter: one class per
    imported package. *)

(** [net/url]: parsed URLs, form values and their encoding. *)
Class net_url : Type := {
  url_URL : Type;
  url_Values : Type;
  url_Parse : string → url_URL + string;
  Values_Encode : url_Values → string
}.

(** [graw/data]: the user agent message and its getters.  The getters take
    the pointer as the code holds it (possibly nil); whether they survive a
    nil receiver is not visible from [nface], so they may panic. *)
Class graw_data : Type := {
  data_UserAgent : Type;
  GetUserAgent : option data_UserAgent → outcome string;
  GetClientId : option data_UserAgent → outcome string;
  GetClientSecret : option data_UserAgent → outcome string;
  GetUsername : option data_UserAgent → outcome string;
  GetPassword : option data_UserAgent → outcome string
}.

(** [encoding/json]: [Unmarshal data v] returns an error or updates what [v]
    points to. *)
Class encoding_json : Type := {
  json_Value : Type;
  json_Unmarshal : string → json_Value → option string * json_Value
}.

(** ** net/http values *)

(** [http.Header]: a map from canonical keys to the values added under them. *)
Definition isLower (c : ascii) : bool :=
  let n := N_of_ascii c in ((97 <=? n) && (n <=? 122))%N.

Definition isUpper (c : ascii) : bool :=
  let n := N_of_ascii c in ((65 <=? n) && (n <=? 90))%N.

Definition isDigit (c : ascii) : bool :=
  let n := N_of_ascii c in ((48 <=? n) && (n <=? 57))%N.

Definition validHeaderFieldByte (c : ascii) : bool :=
  isLower c || isUpper c || isDigit c
  || existsb (Ascii.eqb c) (list_ascii_of_string "!#$%&'*+-.^_`|~").

Fixpoint canonicalBytes (upper : bool) (s : list ascii) : list ascii :=
  match s with
  | [] => []
  | c :: s' =>
      let c' :=
        if upper && isLower c then ascii_of_N (N_of_ascii c - 32)
        else if negb upper && isUpper c then ascii_of_N (N_of_ascii c + 32)
        else c in
      c' :: canonicalBytes (Ascii.eqb c' "-") s'
  end.

Definition CanonicalMIMEHeaderKey (s : string) : string :=
  let bytes := list_ascii_of_string s in
  if forallb validHeaderFieldByte bytes
  then string_of_list_ascii (canonicalBytes true bytes)
  else s.

Definition Header_Add (key value : string) (h : gmap string (list string))
  : gmap string (list string) :=
  let k := CanonicalMIMEHeaderKey key in
  <[k := default [] (h !! k) ++ [value]]> h.

Definition Header_Set (key value : string) (h : gmap string (list string))
  : gmap string (list string) :=
  <[CanonicalMIMEHeaderKey key := [value]]> h.

Definition Header_Get (key : string) (h : gmap string (list string)) : string :=
  match h !! CanonicalMIMEHeaderKey key with
  | Some (v :: _) => v
  | _ => ""
  end.

(** [http.Request], the fields [nface] sets: a nil body is [None]. *)
Record http_Request `{net_url} : Type := {
  hreq_Method : string;
  hreq_URL : url_URL;
  hreq_Header : gmap string (list string);
  hreq_Body : option string
}.

(** [http.NewRequest]: fails when the URL does not parse. *)
Definition http_NewRequest `{net_url} (method url : string) (body : option string)
  : option http_Request * option error :=
  match url_Parse url with
  | inl u =>
      (Some {| hreq_Method := method; hreq_URL := u;
               hreq_Header := ∅; hreq_Body := body |}, None)
  | inr msg => (None, Some (NewRequestError msg))
  end.

(** A response body ([io.ReadCloser]): the bytes it yields and, when reading
    breaks off, the read error. *)
Record ReadCloser : Type := {
  stream_data : string;
  stream_err : option string
}.

Record http_Response : Type := {
  resp_StatusCode : Z;
  resp_Body : option ReadCloser
}.

Definition http_StatusOK : Z := 200.

(** The line feed that ends the "bad status" message. *)
Definition newline : string := String "010" "".

(** [net/http] as a client: transports and the state of the world they talk
    to.  [RoundTrip] is what the [Do] method of an [http.Client] does with a
    request once its receiver and argument are there. *)
Class net_http `{net_url} : Type := {
  World : Type;
  http_Client : Type;
  RoundTrip : http_Client → http_Request → World → (http_Response + string) * World
}.

(** [golang.org/x/oauth2] *)
Record oauth2_Endpoint : Type := {
  TokenURL : string
}.

Record oauth2_Config : Type := {
  ClientID : string;
  ClientSecret : string;
  Endpoint : oauth2_Endpoint
}.

Class x_oauth2 `{net_http} : Type := {
  oauth2_Token : Type;
  PasswordCredentialsToken :
    oauth2_Config → string → string → World → (oauth2_Token + string) * World;
  Config_Client : oauth2_Config → oauth2_Token → http_Client
}.

(** ** The package *)

Definition reqAction : Type := Z.

(** GET describes an http GET request, POST an http POST request. *)
Definition GET : reqAction := 0%Z.
Definition POST : reqAction := 1%Z.

(** authURL is the url for authorization requests, baseURL the default base
    url for all api calls, contentType the header flag for POST requests. *)
Definition authURL : string := "https://www.reddit.com/api/v1/access_token".
Definition baseURL : string := "https://oauth.reddit.com/api".
Definition contentType : string := "application/x-www-form-urlencoded".

Section Nface.
Context {U : net_url} {D : graw_data} {J : encoding_json}
        {N : net_http} {O : x_oauth2}.

(** Client manages a connection with the reddit api. *)
Record Client : Type := {
  Client_baseURL : string;
  Client_client : option http_Client;
  Client_userAgent : option data_UserAgent
}.

(** Request describes how to build an http.Request for the reddit api. *)
Record Request : Type := {
  Request_Action : reqAction;
  Request_URL : string;
  Request_Values : option url_Values
}.

(** What leaves the package: calls into the transport, into the token
    endpoint, and on response bodies. *)
Inductive event : Type :=
  | EvClientDo (hc : http_Client) (req : http_Request)
  | EvReadAll (body : ReadCloser)
  | EvClose (body : ReadCloser)
  | EvPasswordCredentialsToken (conf : oauth2_Config) (username password : string).

(** A [*Client] is a location in [heap]; a location outside the heap is a
    pointer with nothing behind it (nil). *)
Definition loc : Type := nat.

Record state : Type := {
  heap : list Client;
  world : World;
  log : list event
}.

(** Computations: they read and write the state and return or panic. *)
Definition M (A : Type) : Type := state → outcome A * state.

#[local] Instance M_ret : MRet M := λ A a s, (Returned a, s).

#[local] Instance M_bind : MBind M := λ A B f m s,
  match m s with
  | (Returned a, s') => f a s'
  | (Panicked p, s') => (Panicked p, s')
  end.

Definition lift {A : Type} (o : outcome A) : M A := λ s, (o, s).

(** [*p] *)
Definition deref {A : Type} (p : option A) : M A :=
  match p with
  | Some a => mret a
  | None => lift (Panicked NilDereference)
  end.

Definition load (c : loc) : M Client := λ s, deref (heap s !! c) s.

Definition store (c : loc) (v : Client) : M unit := λ s,
  match heap s !! c with
  | Some _ =>
      (Returned (), {| heap := <[c := v]> (heap s); world := world s; log := log s |})
  | None => (Panicked NilDereference, s)
  end.

(** [&Client{...}] *)
Definition alloc (v : Client) : M loc := λ s,
  (Returned (length (heap s)),
   {| heap := heap s ++ [v]; world := world s; log := log s |}).

Definition emit (e : event) : M unit := λ s,
  (Returned (), {| heap := heap s; world := world s; log := log s ++ [e] |}).

(** A call that reaches the world outside the process. *)
Definition external {A : Type} (f : World → A * World) : M A := λ s,
  let (a, w) := f (world s) in
  (Returned a, {| heap := heap s; world := w; log := log s |}).

(** [defer d] followed by [m]: [d] runs when [m] is over, also when [m]
    panics; what [d] returns is dropped. *)
Definition defer {A B : Type} (d : M B) (m : M A) : M A := λ s,
  let (o, s') := m s in (o, (d s').2).

(** The [Do] method of [*http.Client]: a nil receiver or a nil request is
    dereferenced. *)
Definition http_Client_Do (hc : option http_Client) (r : option http_Request)
  : M (http_Response + string) :=
  hc ← deref hc;
  r ← deref r;
  emit (EvClientDo hc r);;
  external (RoundTrip hc r).

Definition ioutil_ReadAll (body : ReadCloser) : M (string * option string) :=
  emit (EvReadAll body);;
  mret (stream_data body, stream_err body).

Definition ReadCloser_Close (body : ReadCloser) : M unit :=
  emit (EvClose body).

(** getRequest returns a template http.Request with the given url and GET
    form values set. *)
Definition getRequest (url : string) (vals : option url_Values)
  : option http_Request * option error :=
  let reqURL :=
    match vals with
    | Some v => url +:+ "?" +:+ Values_Encode v
    | None => url
    end in
  http_NewRequest "GET" reqURL None.

(** postRequest returns a template http.Request with the given url and POST
    form values set. *)
Definition postRequest (url : string) (vals : option url_Values)
  : option http_Request * option error :=
  match vals with
  | None => (None, Some (fmt_Errorf "no values for POST body"))
  | Some v =>
      let reqBody := Values_Encode v in
      match http_NewRequest "POST" url (Some reqBody) with
      | (_, Some err) => (None, Some err)
      | (req, None) =>
          ((λ rq, {| hreq_Method := hreq_Method rq; hreq_URL := hreq_URL rq;
                     hreq_Header := Header_Set "content-type" contentType (hreq_Header rq);
                     hreq_Body := hreq_Body rq |}) <$> req, None)
      end
  end.

(** The request template of [buildRequest]: [req] and [err] start out nil
    and are assigned only under GET and under POST. *)
Definition templateRequest (callURL : string) (r : Request)
  : option http_Request * option error :=
  if (Request_Action r =? GET)%Z then getRequest callURL (Request_Values r)
  else if (Request_Action r =? POST)%Z then postRequest callURL (Request_Values r)
  else (None, None).

(** buildRequest builds an http.Request from a Request struct.  In the last
    statement the nil request and a getter that panics end the same way, so
    the order of the two does not show. *)
Definition buildRequest (c : loc) (r : option Request)
  : M (option http_Request * option error) :=
  cv ← load c;
  rv ← deref r;
  let callURL := Client_baseURL cv +:+ Request_URL rv in
  let '(req, err) := templateRequest callURL rv in
  match err with
  | Some e => mret (None, Some e)
  | None =>
      rq ← deref req;
      ua ← lift (GetUserAgent (Client_userAgent cv));
      mret (Some {| hreq_Method := hreq_Method rq; hreq_URL := hreq_URL rq;
                    hreq_Header := Header_Add "user-agent" ua (hreq_Header rq);
                    hreq_Body := hreq_Body rq |}, None)
  end.

(** doRequest sends a request to the servers and returns the body of the
    response a byte slice. *)
Definition doRequest (c : loc) (r : option http_Request)
  : M (string * option error) :=
  cv ← load c;
  res ← http_Client_Do (Client_client cv) r;
  match res with
  | inr msg => mret ("", Some (ClientDoError msg))
  | inl resp =>
      match resp_Body resp with
      | None => mret ("", Some (fmt_Errorf "empty response body"))
      | Some body =>
          if negb (resp_StatusCode resp =? http_StatusOK)%Z
          then mret ("", Some (fmt_Errorf
                 ("bad status: " +:+ fmt_int (resp_StatusCode resp) +:+ newline)))
          else
            defer (ReadCloser_Close body)
              ('(buf, err) ← ioutil_ReadAll body;
               match err with
               | Some msg =>
                   mret ("", Some (fmt_Errorf ("reading response body failed: " +:+ msg)))
               | None => mret (buf, None)
               end)
      end
  end.

(** Do executes a request using Client's auth and user agent. The result is
    Unmarshal()ed into response. *)
Definition Do (c : loc) (r : option Request) (response : json_Value)
  : M (option error * json_Value) :=
  '(req, err) ← buildRequest c r;
  match err with
  | Some e => mret (Some e, response)
  | None =>
      '(resp, err) ← doRequest c req;
      match err with
      | Some e => mret (Some e, response)
      | None =>
          let (e, v) := json_Unmarshal resp response in
          mret (UnmarshalError <$> e, v)
      end
  end.

(** oauth attempts to authenticate with reddit using OAuth2 and the nface's
    user agent. *)
Definition oauth (c : loc) (auth : string) : M (option error) :=
  cv ← load c;
  id ← lift (GetClientId (Client_userAgent cv));
  secret ← lift (GetClientSecret (Client_userAgent cv));
  let conf := {| ClientID := id; ClientSecret := secret;
                 Endpoint := {| TokenURL := auth |} |} in
  username ← lift (GetUsername (Client_userAgent cv));
  password ← lift (GetPassword (Client_userAgent cv));
  emit (EvPasswordCredentialsToken conf username password);;
  res ← external (PasswordCredentialsToken conf username password);
  match res with
  | inr msg => mret (Some (TokenError msg))
  | inl token =>
      cv ← load c;
      store c {| Client_baseURL := Client_baseURL cv;
                 Client_client := Some (Config_Client conf token);
                 Client_userAgent := Client_userAgent cv |};;
      mret None
  end.

(** NewClient returns a new Client struct. *)
Definition NewClient (userAgent : option data_UserAgent) : M (loc * option error) :=
  client ← alloc {| Client_baseURL := baseURL; Client_client := None;
                    Client_userAgent := userAgent |};
  err ← oauth client authURL;
  mret (client, err).

(** TestClient returns an nface.Client which uses the provided http.Client
    for network actions. *)
Definition TestClient (c : option http_Client) (baseURL : string) : M loc :=
  alloc {| Client_baseURL := baseURL; Client_client := c; Client_userAgent := None |}.

End Nface.

(** ** A concrete world

    One instance of every imported package, small enough to run: form
    encoding as [net/url] does it, a transport that answers every request
    with a canned response, a token endpoint that knows one password. *)

Module Sample.

Definition hexDigit (n : N) : ascii :=
  default "0"%char (list_ascii_of_string "0123456789ABCDEF" !! N.to_nat n).

Definition shouldEscape (c : ascii) : bool :=
  negb (isLower c || isUpper c || isDigit c
        || existsb (Ascii.eqb c) (list_ascii_of_string "-_.~")).

Fixpoint escapeBytes (s : list ascii) : list ascii :=
  match s with
  | [] => []
  | c :: s' =>
      (if Ascii.eqb c " " then ["+"%char]
       else if shouldEscape c
            then ["%"%char; hexDigit (N_of_ascii c / 16); hexDigit (N_of_ascii c mod 16)]
            else [c]) ++ escapeBytes s'
  end.

Definition QueryEscape (s : string) : string :=
  string_of_list_ascii (escapeBytes (list_ascii_of_string s)).

Definition key_le (a b : string * list string) : Prop := String.leb a.1 b.1 = true.

#[local] Instance key_le_dec : RelDecision key_le :=
  λ a b, decide (String.leb a.1 b.1 = true).

Definition joinAmp (parts : list string) : string :=
  match parts with
  | [] => ""
  | p :: ps => foldl (λ acc q, acc +:+ "&" +:+ q) p ps
  end.

Definition Encode (v : gmap string (list string)) : string :=
  joinAmp
    (flat_map (λ kv, (λ x, QueryEscape kv.1 +:+ "=" +:+ QueryEscape x) <$> kv.2)
              (merge_sort key_le (map_to_list v))).

Definition hasCTLByte (s : string) : bool :=
  existsb (λ c, (N_of_ascii c <? 32)%N || (N_of_ascii c =? 127)%N)
          (list_ascii_of_string s).

#[export] Instance url : net_url := {|
  url_URL := string;
  url_Values := gmap string (list string);
  url_Parse := λ s,
    if hasCTLByte s then inr "net/url: invalid control character in URL" else inl s;
  Values_Encode := Encode
|}.

Record UserAgent : Type := {
  user_agent : string;
  client_id : string;
  client_secret : string;
  username : string;
  password : string
}.

Definition getter (f : UserAgent → string) (m : option UserAgent) : outcome string :=
  Returned (from_option f "" m).

#[export] Instance data : graw_data := {|
  data_UserAgent := UserAgent;
  GetUserAgent := getter user_agent;
  GetClientId := getter client_id;
  GetClientSecret := getter client_secret;
  GetUsername := getter username;
  GetPassword := getter password
|}.

(** A target that keeps the bytes it is given; the empty input is no JSON. *)
#[export] Instance json : encoding_json := {|
  json_Value := string;
  json_Unmarshal := λ data v,
    if String.eqb data "" then (Some "unexpected end of JSON input", v)
    else (None, data)
|}.

(** The world counts the round trips it has served. *)
#[export] Instance http : net_http := {|
  World := nat;
  http_Client := http_Response + string;
  RoundTrip := λ canned _ served, (canned, S served)
|}.

Definition ok_body : ReadCloser :=
  {| stream_data := "{}"; stream_err := None |}.

#[export] Instance oauth2 : x_oauth2 := {|
  oauth2_Token := string;
  PasswordCredentialsToken := λ conf user pass served,
    if String.eqb pass "hunter2" then (inl "token", S served)
    else (inr "oauth2: cannot fetch token: 401 Unauthorized", S served);
  Config_Client := λ _ _,
    inl {| resp_StatusCode := 200; resp_Body := Some ok_body |}
|}.

Definition agent : UserAgent :=
  {| user_agent := "graw:test:0.1"; client_id := "id"; client_secret := "secret";
     username := "bot"; password := "hunter2" |}.

Definition stranger : UserAgent :=
  {| user_agent := "graw:test:0.1"; client_id := "id"; client_secret := "secret";
     username := "bot"; password := "guess" |}.

Definition form : gmap string (list string) :=
  <["t" := ["all"]]> (<["limit" := ["5"]]> (<["q" := ["go lang"; "a&b"]]> ∅)).

Definition empty_state : state :=
  {| heap := []; world := 0; log := [] |}.

Definition test_client (canned : http_Response + string) : Client :=
  {| Client_baseURL := baseURL; Client_client := Some canned;
     Client_userAgent := None |}.

(** A state with one test client at location 0. *)
Definition served_by (canned : http_Response + string) : state :=
  (TestClient (Some canned) baseURL empty_state).2.

Definition found (body : option ReadCloser) : http_Response + string :=
  inl {| resp_StatusCode := 200; resp_Body := body |}.

(** The Client a login as [agent] leaves in the heap. *)
Definition agent_client : Client :=
  {| Client_baseURL := baseURL; Client_client := Some (found (Some ok_body));
     Client_userAgent := Some agent |}.

(** The state after a login that worked, and after one that did not. *)
Definition logged_in : state := (NewClient (Some agent) empty_state).2.
Definition turned_down : state := (NewClient (Some stranger) empty_state).2.

Definition me : Request :=
  {| Request_Action := GET; Request_URL := "/v1/me"; Request_Values := None |}.

Definition search : Request :=
  {| Request_Action := GET; Request_URL := "/search"; Request_Values := Some form |}.

Definition submit : Request :=
  {| Request_Action := POST; Request_URL := "/submit"; Request_Values := Some form |}.

Definition submit_nothing : Request :=
  {| Request_Action := POST; Request_URL := "/submit"; Request_Values := None |}.

(** What [buildRequest] makes of [me] for a test client. *)
Definition me_request : http_Request :=
  {| hreq_Method := "GET"; hreq_URL := "https://oauth.reddit.com/api/v1/me";
     hreq_Header := {["User-Agent" := [""]]}; hreq_Body := None |}.

Definition not_found (body : option ReadCloser) : http_Response + string :=
  inl {| resp_StatusCode := 404; resp_Body := body |}.

Definition no_bytes : ReadCloser :=
  {| stream_data := ""; stream_err := None |}.

(** A transport that cannot reach the server, a body that breaks off, and a
    path with a line feed in it. *)
Definition token_transport : http_Client := found (Some ok_body).

(** The state after a call that was answered with status 200 and "{}". *)
Definition answered : state :=
  (Do 0 (Some me) "" (served_by (found (Some ok_body)))).2.

Definition offline : http_Response + string :=
  inr "dial tcp: connection refused".

Definition broken_body : ReadCloser :=
  {| stream_data := "{"; stream_err := Some "unexpected EOF" |}.

Definition bad_path : Request :=
  {| Request_Action := GET; Request_URL := "/v1/me" +:+ newline;
     Request_Values := None |}.

End Sample.

(** ** Properties *)

Section Properties.
Context {U : net_url} {D : graw_data} {J : encoding_json}
        {N : net_http} {O : x_oauth2}.

Implicit Types (c : loc) (cv : Client) (r : Request) (s : state)
               (response : json_Value).

(** Unfolding of the monad and of the primitive computations. *)
Ltac run :=
  unfold mbind, M_bind, mret, M_ret, load, deref, lift, emit, external, defer;
  simpl.

(** The status code in the "bad status" message is in decimal. *)
Example fmt_int_404 : fmt_int 404 = "404".
Proof. vm_compute. reflexivity. Qed.

(** *** Building the request *)

Lemma load_valid c cv s : heap s !! c = Some cv → load c s = (Returned cv, s).
Proof. intros Hc. unfold load. by rewrite Hc. Qed.

Lemma load_invalid c s : heap s !! c = None → load c s = (Panicked NilDereference, s).
Proof. intros Hc. unfold load. by rewrite Hc. Qed.

(** [buildRequest] never writes the state. *)
Lemma buildRequest_state c (r : option Request) s : (buildRequest c r s).2 = s.
Proof.
  unfold buildRequest. run.
  destruct (heap s !! c) as [cv|]; simpl; [|done].
  destruct r as [rv|]; simpl; [|done].
  destruct (templateRequest _ rv) as [[rq|] [e|]]; simpl; try done;
    by destruct (GetUserAgent _).
Qed.

(** [buildRequest] reads the state only through the Client it is given. *)
Lemma buildRequest_reads c (r : option Request) s s' :
  heap s !! c = heap s' !! c →
  (buildRequest c r s).1 = (buildRequest c r s').1.
Proof.
  intros Hc. unfold buildRequest. run. rewrite <- Hc.
  destruct (heap s !! c) as [cv|]; simpl; [|done].
  destruct r as [rv|]; simpl; [|done].
  destruct (templateRequest _ rv) as [[rq|] [e|]]; simpl; try done;
    by destruct (GetUserAgent _).
Qed.

Lemma templateRequest_GET callURL r :
  Request_Action r = GET →
  templateRequest callURL r = getRequest callURL (Request_Values r).
Proof. intros Ha. unfold templateRequest. by rewrite Ha. Qed.

Lemma templateRequest_POST callURL r :
  Request_Action r = POST →
  templateRequest callURL r = postRequest callURL (Request_Values r).
Proof. intros Ha. unfold templateRequest. by rewrite Ha. Qed.

Lemma templateRequest_other callURL r :
  Request_Action r ≠ GET → Request_Action r ≠ POST →
  templateRequest callURL r = (None, None).
Proof.
  intros Hg Hp. unfold templateRequest.
  destruct (Z.eqb_spec (Request_Action r) GET); [done|].
  by destruct (Z.eqb_spec (Request_Action r) POST).
Qed.

(** When the template fails, [buildRequest] and [Do] hand the error back and
    the state is as before. *)
Lemma buildRequest_template_error c cv r e (rq : option http_Request) s :
  heap s !! c = Some cv →
  templateRequest (Client_baseURL cv +:+ Request_URL r) r = (rq, Some e) →
  buildRequest c (Some r) s = (Returned (None, Some e), s).
Proof.
  intros Hc Ht. unfold buildRequest. run. rewrite Hc. simpl. by rewrite Ht.
Qed.

Lemma Do_build_error c (ro : option Request) e response s :
  buildRequest c ro s = (Returned (None, Some e), s) →
  Do c ro response s = (Returned (Some e, response), s).
Proof. intros Hb. unfold Do. run. by rewrite Hb. Qed.

Lemma Do_build_panic c (ro : option Request) p response s :
  buildRequest c ro s = (Panicked p, s) →
  Do c ro response s = (Panicked p, s).
Proof. intros Hb. unfold Do. run. by rewrite Hb. Qed.

(** C1: a POST Request without Values makes [Do] return the error
    "no values for POST body" (the request could not be built), and the state
    after the call is the state before it: nothing was logged, so the
    transport was not invoked and no HTTP request left the process. *)
Theorem Do_post_without_values c cv r response s :
  heap s !! c = Some cv →
  Request_Action r = POST →
  Request_Values r = None →
  Do c (Some r) response s
  = (Returned (Some (errorString "no values for POST body"), response), s).
Proof.
  intros Hc Ha Hv. apply Do_build_error.
  eapply buildRequest_template_error; [done|].
  rewrite templateRequest_POST by done. rewrite Hv. reflexivity.
Qed.

(** C2: when the Action is neither GET nor POST, the template step of
    [buildRequest] assigns neither a request nor an error (both stay nil);
    attaching the user-agent header then dereferences the nil request, so
    [buildRequest] and [Do] panic instead of returning an error. *)
Theorem Do_unknown_action_panics c cv r response s :
  heap s !! c = Some cv →
  Request_Action r ≠ GET →
  Request_Action r ≠ POST →
  templateRequest (Client_baseURL cv +:+ Request_URL r) r = (None, None)
  ∧ buildRequest c (Some r) s = (Panicked NilDereference, s)
  ∧ Do c (Some r) response s = (Panicked NilDereference, s).
Proof.
  intros Hc Hg Hp.
  assert (Ht := templateRequest_other (Client_baseURL cv +:+ Request_URL r) r Hg Hp).
  assert (Hb : buildRequest c (Some r) s = (Panicked NilDereference, s)).
  { unfold buildRequest. run. rewrite Hc. simpl. by rewrite Ht. }
  split; [done|]. split; [done|]. by apply Do_build_panic.
Qed.

(** The headers of a built request. *)
Lemma canonical_user_agent : CanonicalMIMEHeaderKey "user-agent" = "User-Agent".
Proof. reflexivity. Qed.

Lemma canonical_content_type : CanonicalMIMEHeaderKey "content-type" = "Content-Type".
Proof. reflexivity. Qed.

Lemma Header_Add_fresh key value (h : gmap string (list string)) :
  h !! CanonicalMIMEHeaderKey key = None →
  Header_Add key value h = <[CanonicalMIMEHeaderKey key := [value]]> h.
Proof. intros Hk. unfold Header_Add. by rewrite Hk. Qed.

Lemma Header_Get_insert k key value (h : gmap string (list string)) :
  CanonicalMIMEHeaderKey key = k →
  Header_Get key (<[k := [value]]> h) = value.
Proof. intros <-. unfold Header_Get. by rewrite lookup_insert_eq. Qed.

Lemma Header_Get_insert_ne k key vs (h : gmap string (list string)) :
  CanonicalMIMEHeaderKey key ≠ k →
  Header_Get key (<[k := vs]> h) = Header_Get key h.
Proof. intros Hk. unfold Header_Get. by rewrite lookup_insert_ne. Qed.

(** C6: for a GET Request, the built request's URL is the Client's base URL
    followed by the request path, with "?" and the encoded Values appended
    exactly when Values is not nil (as [url.Parse] reads that string), and
    the request has no body.  Its only header is the user agent. *)
Theorem buildRequest_GET c cv r s u ua :
  heap s !! c = Some cv →
  Request_Action r = GET →
  url_Parse
    match Request_Values r with
    | Some v => (Client_baseURL cv +:+ Request_URL r) +:+ "?" +:+ Values_Encode v
    | None => Client_baseURL cv +:+ Request_URL r
    end = inl u →
  GetUserAgent (Client_userAgent cv) = Returned ua →
  buildRequest c (Some r) s
  = (Returned (Some {| hreq_Method := "GET"; hreq_URL := u;
                       hreq_Header := {["User-Agent" := [ua]]};
                       hreq_Body := None |}, None), s).
Proof.
  intros Hc Ha Hu Hua. unfold buildRequest. run. rewrite Hc. simpl.
  rewrite templateRequest_GET by done.
  unfold getRequest, http_NewRequest. rewrite Hu, Hua. simpl.
  rewrite Header_Add_fresh by apply lookup_empty.
  by rewrite canonical_user_agent, insert_empty.
Qed.

(** C7: for a POST Request with Values, the built request has the encoded
    Values as its body, the header content-type:
    application/x-www-form-urlencoded, and a user-agent header holding the
    string the Client's user agent gives. *)
Theorem buildRequest_POST c cv r v s u ua :
  heap s !! c = Some cv →
  Request_Action r = POST →
  Request_Values r = Some v →
  url_Parse (Client_baseURL cv +:+ Request_URL r) = inl u →
  GetUserAgent (Client_userAgent cv) = Returned ua →
  ∃ req,
    buildRequest c (Some r) s = (Returned (Some req, None), s)
    ∧ hreq_Method req = "POST"
    ∧ hreq_URL req = u
    ∧ hreq_Body req = Some (Values_Encode v)
    ∧ hreq_Header req
      = (<["User-Agent" := [ua]]> {["Content-Type" := [contentType]]})
    ∧ Header_Get "content-type" (hreq_Header req) = contentType
    ∧ Header_Get "user-agent" (hreq_Header req) = ua.
Proof.
  intros Hc Ha Hv Hu Hua. eexists. split.
  - unfold buildRequest. run. rewrite Hc. simpl.
    rewrite templateRequest_POST by done. rewrite Hv.
    unfold postRequest, http_NewRequest. rewrite Hu. simpl. rewrite Hua. simpl.
    reflexivity.
  - simpl. unfold Header_Set. rewrite canonical_content_type, insert_empty.
    rewrite Header_Add_fresh by (by rewrite canonical_user_agent).
    rewrite canonical_user_agent. do 4 (split; [reflexivity|]). split.
    + rewrite Header_Get_insert_ne by (by rewrite canonical_content_type).
      unfold Header_Get. by rewrite canonical_content_type, lookup_singleton_eq.
    + by apply Header_Get_insert.
Qed.

(** The other way round: whatever request [buildRequest] returns for a GET
    has the URL and the body above. *)
Lemma buildRequest_GET_built c cv r req (e : option error) s s' :
  heap s !! c = Some cv →
  Request_Action r = GET →
  buildRequest c (Some r) s = (Returned (Some req, e), s') →
  url_Parse
    match Request_Values r with
    | Some v => (Client_baseURL cv +:+ Request_URL r) +:+ "?" +:+ Values_Encode v
    | None => Client_baseURL cv +:+ Request_URL r
    end = inl (hreq_URL req)
  ∧ hreq_Body req = None
  ∧ e = None.
Proof.
  intros Hc Ha. unfold buildRequest. run. rewrite Hc. simpl.
  rewrite templateRequest_GET by done. unfold getRequest, http_NewRequest.
  destruct (url_Parse _) as [u|msg]; simpl; [|by intros [= ]].
  destruct (GetUserAgent _) as [ua|p]; simpl; [|by intros [= ]].
  by intros [= <- <- <-].
Qed.

(** *** Sending the request *)

Lemma http_Client_Do_run (hc : http_Client) (req : http_Request) res w s :
  RoundTrip hc req (world s) = (res, w) →
  http_Client_Do (Some hc) (Some req) s
  = (Returned res,
     {| heap := heap s; world := w; log := log s ++ [EvClientDo hc req] |}).
Proof. intros Hrt. unfold http_Client_Do. run. by rewrite Hrt. Qed.

Lemma http_Client_Do_nil (r : option http_Request) s :
  http_Client_Do None r s = (Panicked NilDereference, s).
Proof. reflexivity. Qed.

(** The five ways a round trip ends in [doRequest]. *)
Section RoundTrip.
Variables (c : loc) (cv : Client) (hc : http_Client) (req : http_Request)
          (s : state) (w : World).
Hypothesis Hc : heap s !! c = Some cv.
Hypothesis Hhc : Client_client cv = Some hc.

Lemma doRequest_transport_error msg :
  RoundTrip hc req (world s) = (inr msg, w) →
  doRequest c (Some req) s = (Returned ("", Some (ClientDoError msg)),
     {| heap := heap s; world := w; log := log s ++ [EvClientDo hc req] |}).
Proof.
  intros Hrt. unfold doRequest. run. rewrite Hc. simpl. rewrite Hhc.
  by rewrite (http_Client_Do_run _ _ _ _ _ Hrt).
Qed.

Lemma doRequest_no_body resp :
  RoundTrip hc req (world s) = (inl resp, w) →
  resp_Body resp = None →
  doRequest c (Some req) s
  = (Returned ("", Some (errorString "empty response body")),
     {| heap := heap s; world := w; log := log s ++ [EvClientDo hc req] |}).
Proof.
  intros Hrt Hb. unfold doRequest. run. rewrite Hc. simpl. rewrite Hhc.
  rewrite (http_Client_Do_run _ _ _ _ _ Hrt). by rewrite Hb.
Qed.

Lemma doRequest_bad_status resp body :
  RoundTrip hc req (world s) = (inl resp, w) →
  resp_Body resp = Some body →
  resp_StatusCode resp ≠ http_StatusOK →
  doRequest c (Some req) s
  = (Returned ("", Some (errorString
       ("bad status: " +:+ fmt_int (resp_StatusCode resp) +:+ newline))),
     {| heap := heap s; world := w; log := log s ++ [EvClientDo hc req] |}).
Proof.
  intros Hrt Hb Hst. unfold doRequest. run. rewrite Hc. simpl. rewrite Hhc.
  rewrite (http_Client_Do_run _ _ _ _ _ Hrt). rewrite Hb.
  by destruct (Z.eqb_spec (resp_StatusCode resp) http_StatusOK).
Qed.

Lemma doRequest_read_error resp body msg :
  RoundTrip hc req (world s) = (inl resp, w) →
  resp_Body resp = Some body →
  resp_StatusCode resp = http_StatusOK →
  stream_err body = Some msg →
  doRequest c (Some req) s
  = (Returned ("", Some (errorString ("reading response body failed: " +:+ msg))),
     {| heap := heap s; world := w;
        log := log s ++ [EvClientDo hc req; EvReadAll body; EvClose body] |}).
Proof.
  intros Hrt Hb Hst He. unfold doRequest. run. rewrite Hc. simpl. rewrite Hhc.
  rewrite (http_Client_Do_run _ _ _ _ _ Hrt). rewrite Hb, Hst. simpl.
  unfold ioutil_ReadAll, ReadCloser_Close. run. rewrite He. simpl.
  by rewrite <- !app_assoc.
Qed.

Lemma doRequest_ok resp body :
  RoundTrip hc req (world s) = (inl resp, w) →
  resp_Body resp = Some body →
  resp_StatusCode resp = http_StatusOK →
  stream_err body = None →
  doRequest c (Some req) s
  = (Returned (stream_data body, None),
     {| heap := heap s; world := w;
        log := log s ++ [EvClientDo hc req; EvReadAll body; EvClose body] |}).
Proof.
  intros Hrt Hb Hst He. unfold doRequest. run. rewrite Hc. simpl. rewrite Hhc.
  rewrite (http_Client_Do_run _ _ _ _ _ Hrt). rewrite Hb, Hst. simpl.
  unfold ioutil_ReadAll, ReadCloser_Close. run. rewrite He. simpl.
  by rewrite <- !app_assoc.
Qed.
End RoundTrip.

(** Without a transport the call panics, and nothing is sent. *)
Lemma doRequest_nil_client c cv (r : option http_Request) s :
  heap s !! c = Some cv →
  Client_client cv = None →
  doRequest c r s = (Panicked NilDereference, s).
Proof.
  intros Hc Hhc. unfold doRequest. run. rewrite Hc. simpl. by rewrite Hhc.
Qed.

(** [Do] after a request was built: what [doRequest] returns decides. *)
Lemma Do_request_error c (ro : option Request) (rq : option http_Request)
    buf e response s s' :
  buildRequest c ro s = (Returned (rq, None), s) →
  doRequest c rq s = (Returned (buf, Some e), s') →
  Do c ro response s = (Returned (Some e, response), s').
Proof. intros Hb Hd. unfold Do. run. rewrite Hb. by rewrite Hd. Qed.

Lemma Do_request_panic c (ro : option Request) (rq : option http_Request)
    p response s s' :
  buildRequest c ro s = (Returned (rq, None), s) →
  doRequest c rq s = (Panicked p, s') →
  Do c ro response s = (Panicked p, s').
Proof. intros Hb Hd. unfold Do. run. rewrite Hb. by rewrite Hd. Qed.

Lemma Do_request_ok c (ro : option Request) (rq : option http_Request)
    buf response s s' :
  buildRequest c ro s = (Returned (rq, None), s) →
  doRequest c rq s = (Returned (buf, None), s') →
  Do c ro response s
  = (Returned (UnmarshalError <$> (json_Unmarshal buf response).1,
               (json_Unmarshal buf response).2), s').
Proof.
  intros Hb Hd. unfold Do. run. rewrite Hb. rewrite Hd.
  by destruct (json_Unmarshal buf response).
Qed.

(** *** What a call leaves behind *)

(** Closes a goal about a call that logged nothing. *)
Ltac silent :=
  exists []; split; [done|]; split; [by rewrite app_nil_r|];
  intros ? ? Hin; by apply elem_of_nil in Hin.

(** [doRequest] keeps the heap and only adds to the log; a request it hands
    to a transport is its argument, and the transport is the Client's. *)
Lemma doRequest_effects c (rq : option http_Request) s :
  ∃ evs,
    heap (doRequest c rq s).2 = heap s
    ∧ log (doRequest c rq s).2 = log s ++ evs
    ∧ ∀ hc req, EvClientDo hc req ∈ evs →
        rq = Some req ∧ Client_client <$> heap s !! c = Some (Some hc).
Proof.
  unfold doRequest, http_Client_Do, ioutil_ReadAll, ReadCloser_Close. run.
  destruct (heap s !! c) as [cv|] eqn:Hc; simpl;
    [|silent].
  destruct (Client_client cv) as [hc|] eqn:Hhc; simpl;
    [|silent].
  destruct rq as [req|]; simpl;
    [|silent].
  destruct (RoundTrip hc req (world s)) as [[resp|msg] w]; simpl.
  - destruct (resp_Body resp) as [body|]; simpl.
    + destruct (resp_StatusCode resp =? http_StatusOK)%Z; simpl.
      * exists [EvClientDo hc req; EvReadAll body; EvClose body].
        split; [by destruct (stream_err body)|].
        split; [destruct (stream_err body); simpl; by rewrite <- !app_assoc|].
        intros hc' req' Hin. rewrite !elem_of_cons, elem_of_nil in Hin.
        destruct Hin as [Heq|[Heq|[Heq|[]]]]; by simplify_eq.
      * exists [EvClientDo hc req]. do 2 (split; [done|]).
        intros hc' req' Hin. apply list_elem_of_singleton in Hin. by simplify_eq.
    + exists [EvClientDo hc req]. do 2 (split; [done|]).
      intros hc' req' Hin. apply list_elem_of_singleton in Hin. by simplify_eq.
  - exists [EvClientDo hc req]. do 2 (split; [done|]).
    intros hc' req' Hin. apply list_elem_of_singleton in Hin. by simplify_eq.
Qed.

(** [Do] keeps the heap and only adds to the log; a request that reaches a
    transport is the one [buildRequest] made of the call's own Request. *)
Lemma Do_effects c (ro : option Request) response s :
  ∃ evs,
    heap (Do c ro response s).2 = heap s
    ∧ log (Do c ro response s).2 = log s ++ evs
    ∧ ∀ hc req, EvClientDo hc req ∈ evs →
        (buildRequest c ro s).1 = Returned (Some req, None)
        ∧ Client_client <$> heap s !! c = Some (Some hc).
Proof.
  unfold Do. run.
  pose proof (buildRequest_state c ro s) as Hs.
  destruct (buildRequest c ro s) as [[[rq [e|]]|p] s0]; simpl in *; subst s0;
    try (silent).
  destruct (doRequest_effects c rq s) as (evs & Hh & Hl & Hev).
  exists evs.
  destruct (doRequest c rq s) as [[[buf [e|]]|p] s1]; simpl in *;
    try destruct (json_Unmarshal buf response); simpl;
    (do 2 (split; [done|]); intros hc req Hin;
     destruct (Hev hc req Hin) as [-> ?]; done).
Qed.

(** A Client without transport: [Do] gets as far as [buildRequest] lets it,
    sends nothing and changes nothing. *)
Lemma Do_without_transport c cv (ro : option Request) response s :
  heap s !! c = Some cv →
  Client_client cv = None →
  Do c ro response s
  = (match (buildRequest c ro s).1 with
     | Returned (_, Some e) => Returned (Some e, response)
     | Returned (_, None) => Panicked NilDereference
     | Panicked p => Panicked p
     end, s).
Proof.
  intros Hc Hhc. unfold Do. run.
  pose proof (buildRequest_state c ro s) as Hs.
  destruct (buildRequest c ro s) as [[[rq [e|]]|p] s0]; simpl in *; subst s0;
    try done.
  by rewrite (doRequest_nil_client c cv rq s Hc Hhc).
Qed.

(** *** Authentication *)

(** [NewClient] when the token endpoint turns the credentials down. *)
Lemma NewClient_token_error (ua : option data_UserAgent) id secret user pass msg w s :
  GetClientId ua = Returned id →
  GetClientSecret ua = Returned secret →
  GetUsername ua = Returned user →
  GetPassword ua = Returned pass →
  PasswordCredentialsToken
    {| ClientID := id; ClientSecret := secret; Endpoint := {| TokenURL := authURL |} |}
    user pass (world s) = (inr msg, w) →
  NewClient ua s
  = (Returned (length (heap s), Some (TokenError msg)),
     {| heap := heap s ++ [{| Client_baseURL := baseURL; Client_client := None;
                              Client_userAgent := ua |}];
        world := w;
        log := log s ++ [EvPasswordCredentialsToken
                 {| ClientID := id; ClientSecret := secret;
                    Endpoint := {| TokenURL := authURL |} |} user pass] |}).
Proof.
  intros Hid Hsec Huser Hpass Htok. unfold NewClient, oauth, alloc. run.
  rewrite lookup_app_r by done. rewrite Nat.sub_diag. simpl.
  rewrite Hid, Hsec, Huser, Hpass. simpl. by rewrite Htok.
Qed.

(** *** Responses, sequences of calls and failed logins *)

(** C3, as the code has it: for a response whose status is not 200, [Do]
    fails with the "bad status" error, whose message carries the status code,
    whatever the body yields, provided the response has a body; for a
    response without body (nil) the check for the body comes first and [Do]
    fails with "empty response body". *)
Theorem Do_status_not_ok c cv hc (ro : option Request) req resp w response s :
  heap s !! c = Some cv →
  Client_client cv = Some hc →
  buildRequest c ro s = (Returned (Some req, None), s) →
  RoundTrip hc req (world s) = (inl resp, w) →
  resp_StatusCode resp ≠ http_StatusOK →
  Do c ro response s
  = (Returned
       (Some (errorString
          match resp_Body resp with
          | Some _ => "bad status: " +:+ fmt_int (resp_StatusCode resp) +:+ newline
          | None => "empty response body"
          end), response),
     {| heap := heap s; world := w; log := log s ++ [EvClientDo hc req] |}).
Proof.
  intros Hc Hhc Hb Hrt Hst. eapply Do_request_error; [done|].
  destruct (resp_Body resp) as [body|] eqn:Hbody.
  - by eapply doRequest_bad_status.
  - by eapply doRequest_no_body.
Qed.

(** C4, as the code has it: for a response with status 200 and no body (nil),
    [Do] fails with the "empty response body" error, which is not a decode
    error: the decoder is not reached. *)
Theorem Do_status_ok_no_body c cv hc (ro : option Request) req resp w response s :
  heap s !! c = Some cv →
  Client_client cv = Some hc →
  buildRequest c ro s = (Returned (Some req, None), s) →
  RoundTrip hc req (world s) = (inl resp, w) →
  resp_StatusCode resp = http_StatusOK →
  resp_Body resp = None →
  Do c ro response s
  = (Returned (Some (errorString "empty response body"), response),
     {| heap := heap s; world := w; log := log s ++ [EvClientDo hc req] |}).
Proof.
  intros Hc Hhc Hb Hrt Hst Hbody. eapply Do_request_error; [done|].
  by eapply doRequest_no_body.
Qed.

(** A body that is there is read and closed, also when it yields no bytes;
    with status 200 [Do] returns what the decoder makes of the bytes. *)
Lemma Do_status_ok_body c cv hc (ro : option Request) req resp body w response s :
  heap s !! c = Some cv →
  Client_client cv = Some hc →
  buildRequest c ro s = (Returned (Some req, None), s) →
  RoundTrip hc req (world s) = (inl resp, w) →
  resp_StatusCode resp = http_StatusOK →
  resp_Body resp = Some body →
  stream_err body = None →
  Do c ro response s
  = (Returned (UnmarshalError <$> (json_Unmarshal (stream_data body) response).1,
               (json_Unmarshal (stream_data body) response).2),
     {| heap := heap s; world := w;
        log := log s ++ [EvClientDo hc req; EvReadAll body; EvClose body] |}).
Proof.
  intros Hc Hhc Hb Hrt Hst Hbody Herr. eapply Do_request_ok; [done|].
  by eapply doRequest_ok.
Qed.

(** C9: [Do] leaves the heap, hence every field of every Client, as it was;
    in a second call on the same Client the request is built as it would
    have been without the first call, so it depends on the second Request
    alone, and that is the only request the second call hands to a
    transport. *)
Theorem Do_twice_isolated c (r1 r2 : option Request) response1 response2 s :
  let s1 := (Do c r1 response1 s).2 in
  let s2 := (Do c r2 response2 s1).2 in
  heap s1 = heap s
  ∧ heap s2 = heap s
  ∧ (buildRequest c r2 s1).1 = (buildRequest c r2 s).1
  ∧ ∃ evs, log s2 = log s1 ++ evs
      ∧ ∀ hc req, EvClientDo hc req ∈ evs →
          (buildRequest c r2 s).1 = Returned (Some req, None).
Proof.
  intros s1 s2.
  destruct (Do_effects c r1 response1 s) as (evs1 & Hh1 & _ & _).
  destruct (Do_effects c r2 response2 s1) as (evs2 & Hh2 & Hl2 & Hev2).
  fold s1 in Hh1. fold s2 in Hh2, Hl2.
  assert (Hb : (buildRequest c r2 s1).1 = (buildRequest c r2 s).1)
    by (apply buildRequest_reads; by rewrite Hh1).
  split; [done|]. split; [congruence|]. split; [done|].
  exists evs2. split; [done|].
  intros hc req Hin. rewrite <- Hb. by apply (Hev2 hc req).
Qed.

(** C8: when the token exchange fails, [NewClient] returns an error that is
    not nil, and the Client behind the pointer it returns cannot be used: it
    has no transport, and no [Do] on it ever succeeds or sends a request. *)
Theorem NewClient_token_failure (ua : option data_UserAgent)
    id secret user pass msg w s :
  GetClientId ua = Returned id →
  GetClientSecret ua = Returned secret →
  GetUsername ua = Returned user →
  GetPassword ua = Returned pass →
  PasswordCredentialsToken
    {| ClientID := id; ClientSecret := secret; Endpoint := {| TokenURL := authURL |} |}
    user pass (world s) = (inr msg, w) →
  ∃ c s',
    NewClient ua s = (Returned (c, Some (TokenError msg)), s')
    ∧ Client_client <$> heap s' !! c = Some None
    ∧ ∀ s2 (ro : option Request) response,
        heap s2 !! c = heap s' !! c →
        (Do c ro response s2).2 = s2
        ∧ ∀ v, (Do c ro response s2).1 ≠ Returned (None, v).
Proof.
  intros Hid Hsec Huser Hpass Htok. eexists _, _.
  split; [by apply NewClient_token_error|]. simpl.
  rewrite lookup_app_r by done. rewrite Nat.sub_diag. simpl.
  split; [done|]. intros s2 ro response Hc2.
  erewrite Do_without_transport by done. simpl.
  split; [done|]. intros v.
  by destruct (buildRequest _ ro s2).1 as [[rq [e|]]|p].
Qed.

(** C10, as the code has it: when the token exchange fails, [NewClient]
    still returns a pointer to a Client, next to the error; that Client has
    no transport, so every later [Do] on it whose request gets built
    dereferences nil and panics instead of returning an error.  ([Do] on a
    request that cannot be built returns the error of [buildRequest].) *)
Theorem NewClient_failure_nil_transport (ua : option data_UserAgent)
    id secret user pass msg w s :
  GetClientId ua = Returned id →
  GetClientSecret ua = Returned secret →
  GetUsername ua = Returned user →
  GetPassword ua = Returned pass →
  PasswordCredentialsToken
    {| ClientID := id; ClientSecret := secret; Endpoint := {| TokenURL := authURL |} |}
    user pass (world s) = (inr msg, w) →
  let c := length (heap s) in
  let s' := (NewClient ua s).2 in
  (NewClient ua s).1 = Returned (c, Some (TokenError msg))
  ∧ heap s' !! c = Some {| Client_baseURL := baseURL; Client_client := None;
                           Client_userAgent := ua |}
  ∧ ∀ s2 (ro : option Request) (rq : option http_Request) response,
      heap s2 !! c = heap s' !! c →
      buildRequest c ro s2 = (Returned (rq, None), s2) →
      Do c ro response s2 = (Panicked NilDereference, s2).
Proof.
  intros Hid Hsec Huser Hpass Htok c s'. subst c s'.
  rewrite (NewClient_token_error ua id secret user pass msg w s) by done. simpl.
  rewrite lookup_app_r by done. rewrite Nat.sub_diag. simpl.
  split; [done|]. split; [done|]. intros s2 ro rq response Hc2 Hb.
  erewrite Do_without_transport by done. by rewrite Hb.
Qed.

(** *** Every way a call of [Do] can go *)

(** [Do] in terms of its two steps. *)
Lemma Do_run c (ro : option Request) response s :
  Do c ro response s
  = match (buildRequest c ro s).1 with
    | Panicked p => (Panicked p, s)
    | Returned (_, Some e) => (Returned (Some e, response), s)
    | Returned (rq, None) =>
        match doRequest c rq s with
        | (Panicked p, s') => (Panicked p, s')
        | (Returned (_, Some e), s') => (Returned (Some e, response), s')
        | (Returned (buf, None), s') =>
            (Returned (UnmarshalError <$> (json_Unmarshal buf response).1,
                       (json_Unmarshal buf response).2), s')
        end
    end.
Proof.
  unfold Do. run. pose proof (buildRequest_state c ro s) as Hs.
  destruct (buildRequest c ro s) as [[[rq [e|]]|p] s0]; simpl in *; subst s0;
    try done.
  destruct (doRequest c rq s) as [[[buf [e|]]|p] s1]; simpl; try done.
  by destruct (json_Unmarshal buf response).
Qed.

(** [doRequest] with a transport and a request, by what the round trip
    brings. *)
Lemma doRequest_run c cv hc (req : http_Request) s :
  heap s !! c = Some cv →
  Client_client cv = Some hc →
  doRequest c (Some req) s
  = let sent evs :=
      {| heap := heap s; world := (RoundTrip hc req (world s)).2;
         log := log s ++ EvClientDo hc req :: evs |} in
    match (RoundTrip hc req (world s)).1 with
    | inr msg => (Returned ("", Some (ClientDoError msg)), sent [])
    | inl resp =>
        match resp_Body resp with
        | None => (Returned ("", Some (errorString "empty response body")), sent [])
        | Some body =>
            if (resp_StatusCode resp =? http_StatusOK)%Z
            then (Returned
                    match stream_err body with
                    | Some msg =>
                        ("", Some (errorString ("reading response body failed: " +:+ msg)))
                    | None => (stream_data body, None)
                    end, sent [EvReadAll body; EvClose body])
            else (Returned ("", Some (errorString
                    ("bad status: " +:+ fmt_int (resp_StatusCode resp) +:+ newline))),
                  sent [])
        end
    end.
Proof.
  intros Hc Hhc. unfold doRequest, http_Client_Do, ioutil_ReadAll, ReadCloser_Close.
  run. rewrite Hc. simpl. rewrite Hhc. simpl.
  destruct (RoundTrip hc req (world s)) as [[resp|msg] w]; simpl; [|done].
  destruct (resp_Body resp) as [body|]; simpl; [|done].
  destruct (resp_StatusCode resp =? http_StatusOK)%Z; simpl; [|done].
  destruct (stream_err body); simpl; by rewrite <- !app_assoc.
Qed.

(** Without a Client, a transport or a request, [doRequest] panics on the
    spot. *)
Lemma doRequest_panics c (rq : option http_Request) s :
  Client_client <$> heap s !! c = None
  ∨ Client_client <$> heap s !! c = Some None
  ∨ rq = None →
  doRequest c rq s = (Panicked NilDereference, s).
Proof.
  intros Hcase. unfold doRequest, http_Client_Do. run.
  destruct (heap s !! c) as [cv|]; simpl in *; [|done].
  destruct (Client_client cv) as [hc|]; simpl; [|done].
  destruct rq as [req|]; simpl; [|done].
  by destruct Hcase as [[=]|[[=]|[=]]].
Qed.

(** The errors [buildRequest] returns come from [postRequest] or from
    [http.NewRequest], and come without a request. *)
Lemma buildRequest_errors c (ro : option Request) (rq : option http_Request) e s s' :
  buildRequest c ro s = (Returned (rq, Some e), s') →
  rq = None
  ∧ (e = errorString "no values for POST body" ∨ ∃ msg, e = NewRequestError msg).
Proof.
  unfold buildRequest. run.
  destruct (heap s !! c) as [cv|]; simpl; [|done].
  destruct ro as [r|]; simpl; [|done].
  destruct (templateRequest _ r) as [rq' [e'|]] eqn:Ht; simpl.
  - intros [= <- <- _]. split; [done|].
    revert Ht. unfold templateRequest, getRequest, postRequest, http_NewRequest.
    repeat case_match; intros [= ]; simplify_eq; eauto.
  - destruct rq'; simpl; [|done]. by destruct (GetUserAgent _).
Qed.

(** X1: when the transport call fails, [Do] returns the transport's error as
    it is; the round trip is all that happened, and the target is as it
    was. *)
Theorem Do_transport_error c cv hc (ro : option Request) req msg w response s :
  heap s !! c = Some cv →
  Client_client cv = Some hc →
  buildRequest c ro s = (Returned (Some req, None), s) →
  RoundTrip hc req (world s) = (inr msg, w) →
  Do c ro response s
  = (Returned (Some (ClientDoError msg), response),
     {| heap := heap s; world := w; log := log s ++ [EvClientDo hc req] |}).
Proof.
  intros Hc Hhc Hb Hrt. rewrite Do_run, Hb. simpl.
  rewrite (doRequest_run c cv hc req s Hc Hhc). by rewrite Hrt.
Qed.

(** X2: with status 200 and a body that reads to its end, [Do] hands exactly
    the bytes of the body to the decoder and returns what the decoder
    returns: no error and the decoded target when it accepts them.  The body
    is read once and closed after that. *)
Theorem Do_decodes_body c cv hc (ro : option Request) req resp body w response v s :
  heap s !! c = Some cv →
  Client_client cv = Some hc →
  buildRequest c ro s = (Returned (Some req, None), s) →
  RoundTrip hc req (world s) = (inl resp, w) →
  resp_StatusCode resp = http_StatusOK →
  resp_Body resp = Some body →
  stream_err body = None →
  json_Unmarshal (stream_data body) response = (None, v) →
  Do c ro response s
  = (Returned (None, v),
     {| heap := heap s; world := w;
        log := log s ++ [EvClientDo hc req; EvReadAll body; EvClose body] |}).
Proof.
  intros Hc Hhc Hb Hrt Hst Hbody Herr Hjson. rewrite Do_run, Hb. simpl.
  rewrite (doRequest_run c cv hc req s Hc Hhc). rewrite Hrt. simpl.
  rewrite Hbody, Hst. simpl. rewrite Herr. by rewrite Hjson.
Qed.

(** X3: when reading the body breaks off, [Do] returns "reading response
    body failed: " followed by the read error; the body is closed all the
    same, the decoder is not reached and the target is as it was. *)
Theorem Do_read_error c cv hc (ro : option Request) req resp body msg w response s :
  heap s !! c = Some cv →
  Client_client cv = Some hc →
  buildRequest c ro s = (Returned (Some req, None), s) →
  RoundTrip hc req (world s) = (inl resp, w) →
  resp_StatusCode resp = http_StatusOK →
  resp_Body resp = Some body →
  stream_err body = Some msg →
  Do c ro response s
  = (Returned (Some (errorString ("reading response body failed: " +:+ msg)), response),
     {| heap := heap s; world := w;
        log := log s ++ [EvClientDo hc req; EvReadAll body; EvClose body] |}).
Proof.
  intros Hc Hhc Hb Hrt Hst Hbody Herr. rewrite Do_run, Hb. simpl.
  rewrite (doRequest_run c cv hc req s Hc Hhc). rewrite Hrt. simpl.
  rewrite Hbody, Hst. simpl. by rewrite Herr.
Qed.

(** X4: a URL that [http.NewRequest] does not accept (for a GET the query is
    part of it, for a POST with Values it is base URL and path alone) makes
    [Do] return that error; nothing is sent and nothing changes. *)
Theorem Do_url_rejected c cv r msg response s :
  heap s !! c = Some cv →
  (Request_Action r = GET
   ∧ url_Parse
       match Request_Values r with
       | Some v => (Client_baseURL cv +:+ Request_URL r) +:+ "?" +:+ Values_Encode v
       | None => Client_baseURL cv +:+ Request_URL r
       end = inr msg)
  ∨ (Request_Action r = POST
     ∧ is_Some (Request_Values r)
     ∧ url_Parse (Client_baseURL cv +:+ Request_URL r) = inr msg) →
  Do c (Some r) response s = (Returned (Some (NewRequestError msg), response), s).
Proof.
  intros Hc Hcase. apply Do_build_error.
  eapply buildRequest_template_error with (rq := None); [done|].
  destruct Hcase as [[Ha Hu]|(Ha & [v Hv] & Hu)].
  - rewrite templateRequest_GET by done.
    unfold getRequest, http_NewRequest. by rewrite Hu.
  - rewrite templateRequest_POST by done. rewrite Hv.
    unfold postRequest, http_NewRequest. by rewrite Hu.
Qed.

(** X5: [Do] on a Client pointer with nothing behind it, or with a nil
    Request, panics when [buildRequest] reads the base URL and the path;
    nothing is sent. *)
Theorem Do_nil_inputs c (ro : option Request) response s :
  heap s !! c = None ∨ ro = None →
  Do c ro response s = (Panicked NilDereference, s).
Proof.
  intros Hcase. apply Do_build_panic. unfold buildRequest. run.
  destruct (heap s !! c) as [cv|]; simpl; [|done].
  by destruct Hcase as [[=]| ->].
Qed.

(** X6: only the decoder writes the target: with every error that is not the
    decoder's, [Do] returns the target as it was given. *)
Theorem Do_target_untouched c (ro : option Request) response e v s :
  (Do c ro response s).1 = Returned (Some e, v) →
  (∀ msg, e ≠ UnmarshalError msg) →
  v = response.
Proof.
  rewrite Do_run. intros Hdo Hne.
  destruct (buildRequest c ro s).1 as [[rq [e'|]]|p]; simpl in Hdo;
    [by simplify_eq| |done].
  destruct (doRequest c rq s) as [[[buf [e'|]]|p] s1]; simpl in Hdo;
    [by simplify_eq| |done].
  destruct (json_Unmarshal buf response).1 as [msg|]; simpl in Hdo; [|done].
  simplify_eq. by destruct (Hne msg).
Qed.

(** X7: the errors [Do] can return: the four messages the package writes
    itself (with a status code that is not 200 in "bad status"), and the
    errors of [http.NewRequest], of the transport and of the decoder.  An
    error of the token endpoint is never among them. *)
Theorem Do_error_kinds c (ro : option Request) response e v s :
  (Do c ro response s).1 = Returned (Some e, v) →
  match e with
  | errorString m =>
      m = "no values for POST body"
      ∨ m = "empty response body"
      ∨ (∃ code, code ≠ http_StatusOK ∧ m = "bad status: " +:+ fmt_int code +:+ newline)
      ∨ (∃ msg, m = "reading response body failed: " +:+ msg)
  | TokenError _ => False
  | NewRequestError _ | ClientDoError _ | UnmarshalError _ => True
  end.
Proof.
  rewrite Do_run. intros Hdo.
  pose proof (buildRequest_state c ro s) as Hs.
  destruct (buildRequest c ro s) as [[[rq [e'|]]|p] s0] eqn:Hb;
    simpl in *; subst s0; [| |done].
  { simplify_eq.
    destruct (buildRequest_errors _ _ _ _ _ _ Hb) as [_ [->|[msg ->]]]; auto. }
  destruct (Client_client <$> heap s !! c) as [[hc|]|] eqn:Hc;
    [|rewrite doRequest_panics in Hdo by auto; done..].
  destruct rq as [req|]; [|rewrite doRequest_panics in Hdo by auto; done].
  destruct (heap s !! c) as [cv|] eqn:Hcv; simplify_eq/=.
  rewrite (doRequest_run c cv hc req s Hcv Hc) in Hdo. simpl in Hdo.
  destruct (RoundTrip hc req (world s)).1 as [resp|msg]; simpl in Hdo;
    [|by simplify_eq].
  destruct (resp_Body resp) as [body|]; simpl in Hdo; [|simplify_eq; auto].
  destruct (Z.eqb_spec (resp_StatusCode resp) http_StatusOK); simpl in Hdo;
    [|simplify_eq; eauto 6].
  destruct (stream_err body) as [msg|]; simpl in Hdo; [simplify_eq; eauto 6|].
  destruct (json_Unmarshal (stream_data body) response).1; by simplify_eq.
Qed.

(** [buildRequest] on a Client and a Request that are there. *)
Lemma buildRequest_run c cv r s :
  heap s !! c = Some cv →
  buildRequest c (Some r) s
  = (match templateRequest (Client_baseURL cv +:+ Request_URL r) r with
     | (_, Some e) => Returned (None, Some e)
     | (None, None) => Panicked NilDereference
     | (Some rq, None) =>
         match GetUserAgent (Client_userAgent cv) with
         | Returned ua =>
             Returned
               (Some {| hreq_Method := hreq_Method rq; hreq_URL := hreq_URL rq;
                        hreq_Header := Header_Add "user-agent" ua (hreq_Header rq);
                        hreq_Body := hreq_Body rq |}, None)
         | Panicked p => Panicked p
         end
     end, s).
Proof.
  intros Hc. unfold buildRequest. run. rewrite Hc. simpl.
  destruct (templateRequest _ r) as [[rq|] [e|]]; simpl; try done.
  by destruct (GetUserAgent _).
Qed.

(** Under GET and under POST the template has a request or an error. *)
Lemma templateRequest_known callURL r :
  Request_Action r = GET ∨ Request_Action r = POST →
  templateRequest callURL r ≠ (None, None).
Proof.
  intros [Ha|Ha].
  - rewrite templateRequest_GET by done. unfold getRequest, http_NewRequest.
    by destruct (url_Parse _).
  - rewrite templateRequest_POST by done. unfold postRequest, http_NewRequest.
    destruct (Request_Values r); [|done]. by destruct (url_Parse _).
Qed.

(** X8: [Do] does not panic on a Client that has a transport, with a
    Request whose Action is GET or POST, when the user agent yields its
    string: it returns, with an error or without. *)
Theorem Do_never_panics c cv hc r ua response s :
  heap s !! c = Some cv →
  Client_client cv = Some hc →
  Request_Action r = GET ∨ Request_Action r = POST →
  GetUserAgent (Client_userAgent cv) = Returned ua →
  ∃ res, (Do c (Some r) response s).1 = Returned res.
Proof.
  intros Hc Hhc Ha Hua. rewrite Do_run, (buildRequest_run c cv r s Hc). simpl.
  pose proof (templateRequest_known (Client_baseURL cv +:+ Request_URL r) r Ha) as Ht.
  destruct (templateRequest _ r) as [[rq|] [e|]]; simpl; [by eauto| |by eauto|done].
  rewrite Hua. rewrite (doRequest_run c cv hc _ s Hc Hhc). simpl.
  destruct (RoundTrip hc _ (world s)).1 as [resp|msg]; simpl; [|by eauto].
  destruct (resp_Body resp) as [body|]; simpl; [|by eauto].
  destruct (resp_StatusCode resp =? http_StatusOK)%Z; simpl; [|by eauto].
  destruct (stream_err body); simpl; by eauto.
Qed.

(** X9: one call of [Do] makes at most one round trip, through the Client's
    transport and with the request [buildRequest] made; it never asks the
    token endpoint and never writes the heap; a body it reads it closes after
    reading.  A call that makes no round trip leaves the state as it was. *)
Theorem Do_one_round_trip c (ro : option Request) response s :
  let s' := (Do c ro response s).2 in
  s' = s
  ∨ ∃ cv hc req,
      heap s !! c = Some cv
      ∧ Client_client cv = Some hc
      ∧ buildRequest c ro s = (Returned (Some req, None), s)
      ∧ heap s' = heap s
      ∧ world s' = (RoundTrip hc req (world s)).2
      ∧ (log s' = log s ++ [EvClientDo hc req]
         ∨ ∃ body, log s' = log s ++ [EvClientDo hc req; EvReadAll body; EvClose body]).
Proof.
  simpl. rewrite Do_run.
  pose proof (buildRequest_state c ro s) as Hs.
  destruct (buildRequest c ro s) as [[[rq [e|]]|p] s0] eqn:Hb;
    simpl in *; subst s0; [by left| |by left].
  destruct (Client_client <$> heap s !! c) as [[hc|]|] eqn:Hc;
    [|rewrite doRequest_panics by auto; by left..].
  destruct rq as [req|]; [|rewrite doRequest_panics by auto; by left].
  destruct (heap s !! c) as [cv|] eqn:Hcv; simplify_eq/=.
  right. exists cv, hc, req. do 3 (split; [done|]).
  rewrite (doRequest_run c cv hc req s Hcv Hc). simpl.
  destruct (RoundTrip hc req (world s)) as [[resp|msg] w]; simpl; [|by auto].
  destruct (resp_Body resp) as [body|]; simpl; [|by auto].
  destruct (resp_StatusCode resp =? http_StatusOK)%Z; simpl; [|by auto].
  destruct (stream_err body); simpl; eauto 6.
Qed.

(** X10: what a nil error from [Do] means: the request was built and went
    through the Client's transport, the response had status 200 and a body,
    the body was read to its end and closed, and the target returned is what
    the decoder made of the body's bytes. *)
Theorem Do_success_means c (ro : option Request) response v s s' :
  Do c ro response s = (Returned (None, v), s') →
  ∃ cv hc req resp body,
    heap s !! c = Some cv
    ∧ Client_client cv = Some hc
    ∧ buildRequest c ro s = (Returned (Some req, None), s)
    ∧ RoundTrip hc req (world s) = (inl resp, world s')
    ∧ resp_StatusCode resp = http_StatusOK
    ∧ resp_Body resp = Some body
    ∧ stream_err body = None
    ∧ json_Unmarshal (stream_data body) response = (None, v)
    ∧ heap s' = heap s
    ∧ log s' = log s ++ [EvClientDo hc req; EvReadAll body; EvClose body].
Proof.
  rewrite Do_run. intros Hdo.
  pose proof (buildRequest_state c ro s) as Hs.
  destruct (buildRequest c ro s) as [[[rq [e|]]|p] s0] eqn:Hb;
    simpl in *; subst s0; [done| |done].
  destruct (Client_client <$> heap s !! c) as [[hc|]|] eqn:Hc;
    [|rewrite doRequest_panics in Hdo by auto; done..].
  destruct rq as [req|]; [|rewrite doRequest_panics in Hdo by auto; done].
  destruct (heap s !! c) as [cv|] eqn:Hcv; simplify_eq/=.
  rewrite (doRequest_run c cv hc req s Hcv Hc) in Hdo. simpl in Hdo.
  destruct (RoundTrip hc req (world s)) as [[resp|msg] w] eqn:Hrt;
    simpl in Hdo; [|done].
  destruct (resp_Body resp) as [body|] eqn:Hbody; simpl in Hdo; [|done].
  destruct (Z.eqb_spec (resp_StatusCode resp) http_StatusOK); simpl in Hdo; [|done].
  destruct (stream_err body) as [msg|] eqn:Herr; simpl in Hdo; [done|].
  destruct (json_Unmarshal (stream_data body) response) as [[msg|] v'] eqn:Hjson;
    simpl in Hdo; [done|].
  injection Hdo as <- <-. exists cv, hc, req, resp, body. by repeat split.
Qed.

(** *** Logging in, then calling *)

(** X11: [oauth] asks the token endpoint once, at the URL it is given, with
    the client id, client secret, user name and password of the Client's user
    agent.  When a token comes back, it replaces the Client's transport and
    nothing else; when the exchange fails, it returns the error and leaves
    the Client as it was, a transport from an earlier login included. *)
Theorem oauth_effect c cv auth id secret user pass res w s :
  heap s !! c = Some cv →
  GetClientId (Client_userAgent cv) = Returned id →
  GetClientSecret (Client_userAgent cv) = Returned secret →
  GetUsername (Client_userAgent cv) = Returned user →
  GetPassword (Client_userAgent cv) = Returned pass →
  PasswordCredentialsToken
    {| ClientID := id; ClientSecret := secret; Endpoint := {| TokenURL := auth |} |}
    user pass (world s) = (res, w) →
  oauth c auth s
  = (Returned match res with
              | inl _ => None
              | inr msg => Some (TokenError msg)
              end,
     {| heap :=
          match res with
          | inl token =>
              <[c := {| Client_baseURL := Client_baseURL cv;
                        Client_client :=
                          Some (Config_Client
                                  {| ClientID := id; ClientSecret := secret;
                                     Endpoint := {| TokenURL := auth |} |} token);
                        Client_userAgent := Client_userAgent cv |}]> (heap s)
          | inr _ => heap s
          end;
        world := w;
        log := log s ++ [EvPasswordCredentialsToken
                 {| ClientID := id; ClientSecret := secret;
                    Endpoint := {| TokenURL := auth |} |} user pass] |}).
Proof.
  intros Hc Hid Hsec Huser Hpass Htok. unfold oauth, store. run.
  rewrite Hc. simpl. rewrite Hid, Hsec, Huser, Hpass. simpl. rewrite Htok.
  destruct res as [token|msg]; simpl; [|done].
  rewrite Hc. simpl. by rewrite Hc.
Qed.

(** [NewClient] when the token endpoint hands out a token. *)
Lemma NewClient_token_ok (ua : option data_UserAgent) id secret user pass token w s :
  GetClientId ua = Returned id →
  GetClientSecret ua = Returned secret →
  GetUsername ua = Returned user →
  GetPassword ua = Returned pass →
  PasswordCredentialsToken
    {| ClientID := id; ClientSecret := secret; Endpoint := {| TokenURL := authURL |} |}
    user pass (world s) = (inl token, w) →
  NewClient ua s
  = (Returned (length (heap s), None),
     {| heap := heap s ++ [{| Client_baseURL := baseURL;
                              Client_client :=
                                Some (Config_Client
                                        {| ClientID := id; ClientSecret := secret;
                                           Endpoint := {| TokenURL := authURL |} |} token);
                              Client_userAgent := ua |}];
        world := w;
        log := log s ++ [EvPasswordCredentialsToken
                 {| ClientID := id; ClientSecret := secret;
                    Endpoint := {| TokenURL := authURL |} |} user pass] |}).
Proof.
  intros Hid Hsec Huser Hpass Htok. unfold NewClient, oauth, alloc, store. run.
  rewrite lookup_app_r by done. rewrite Nat.sub_diag. simpl.
  rewrite Hid, Hsec, Huser, Hpass. simpl. rewrite Htok. simpl.
  do 2 (rewrite lookup_app_r by done; rewrite Nat.sub_diag; simpl).
  rewrite insert_app_r_alt by done. by rewrite Nat.sub_diag.
Qed.

(** X12: after a login that worked, [NewClient] returns no error and a new
    Client with the default base URL, the given user agent and the transport
    made from the token; every request [Do] builds for that Client goes
    through that transport, first thing after the token exchange. *)
Theorem NewClient_then_Do (ua : option data_UserAgent) id secret user pass token w s :
  GetClientId ua = Returned id →
  GetClientSecret ua = Returned secret →
  GetUsername ua = Returned user →
  GetPassword ua = Returned pass →
  PasswordCredentialsToken
    {| ClientID := id; ClientSecret := secret; Endpoint := {| TokenURL := authURL |} |}
    user pass (world s) = (inl token, w) →
  let conf := {| ClientID := id; ClientSecret := secret;
                 Endpoint := {| TokenURL := authURL |} |} in
  let c := length (heap s) in
  let s1 := (NewClient ua s).2 in
  (NewClient ua s).1 = Returned (c, None)
  ∧ heap s1 = heap s ++ [{| Client_baseURL := baseURL;
                            Client_client := Some (Config_Client conf token);
                            Client_userAgent := ua |}]
  ∧ log s1 = log s ++ [EvPasswordCredentialsToken conf user pass]
  ∧ ∀ (ro : option Request) req response,
      buildRequest c ro s1 = (Returned (Some req, None), s1) →
      ∃ rest,
        log (Do c ro response s1).2
        = log s ++ EvPasswordCredentialsToken conf user pass
            :: EvClientDo (Config_Client conf token) req :: rest
        ∧ world (Do c ro response s1).2
          = (RoundTrip (Config_Client conf token) req w).2.
Proof.
  intros Hid Hsec Huser Hpass Htok conf c s1. subst s1.
  rewrite (NewClient_token_ok ua id secret user pass token w s) by done. simpl.
  do 3 (split; [done|]). intros ro req response Hb.
  rewrite Do_run, Hb. simpl.
  erewrite doRequest_run;
    [|simpl; rewrite lookup_app_r by done; by rewrite Nat.sub_diag|done].
  simpl. fold conf.
  destruct (RoundTrip (Config_Client conf token) req w) as [[resp|msg] w'];
    simpl; [|eexists; by rewrite <- app_assoc].
  destruct (resp_Body resp) as [body|]; simpl;
    [|eexists; by rewrite <- app_assoc].
  destruct (resp_StatusCode resp =? http_StatusOK)%Z; simpl;
    [|eexists; by rewrite <- app_assoc].
  destruct (stream_err body); simpl; eexists; by rewrite <- app_assoc.
Qed.

(** X13: whatever the user agent and the token endpoint do, [NewClient]
    leaves every Client that was there before as it was, and a pointer it
    returns is a new one. *)
Theorem NewClient_keeps_clients (ua : option data_UserAgent) s :
  let s' := (NewClient ua s).2 in
  (∀ c' cv', heap s !! c' = Some cv' → heap s' !! c' = Some cv')
  ∧ (∀ c e, (NewClient ua s).1 = Returned (c, e) →
       heap s !! c = None ∧ is_Some (heap s' !! c)).
Proof.
  unfold NewClient, oauth, alloc, store. run.
  rewrite lookup_app_r by done. rewrite Nat.sub_diag. simpl.
  assert (Hnew : heap s !! length (heap s) = None) by by apply lookup_ge_None.
  assert (Hold : ∀ c' cv' (new : Client), heap s !! c' = Some cv' →
                   (heap s ++ [new]) !! c' = Some cv')
    by (intros; by apply lookup_app_l_Some).
  destruct (GetClientId ua); simpl; [|split; [by auto|by intros ? ? [=]]].
  destruct (GetClientSecret ua); simpl; [|split; [by auto|by intros ? ? [=]]].
  destruct (GetUsername ua); simpl; [|split; [by auto|by intros ? ? [=]]].
  destruct (GetPassword ua); simpl; [|split; [by auto|by intros ? ? [=]]].
  destruct (PasswordCredentialsToken _ _ _ _) as [[token|msg] w]; simpl.
  - do 2 (rewrite lookup_app_r by done; rewrite Nat.sub_diag; simpl).
    rewrite insert_app_r_alt by done. rewrite Nat.sub_diag. simpl.
    split; [by auto|]. intros c e [= <- _]. split; [done|].
    rewrite lookup_app_r by done. rewrite Nat.sub_diag. by eexists.
  - split; [by auto|]. intros c e [= <- _]. split; [done|].
    rewrite lookup_app_r by done. rewrite Nat.sub_diag. by eexists.
Qed.

(** What [Do] adds to the log: round trips with the request it built,
    through the Client's transport, and the reading and closing of bodies. *)
Lemma Do_log c (ro : option Request) response s :
  ∃ evs,
    log (Do c ro response s).2 = log s ++ evs
    ∧ ∀ ev, ev ∈ evs →
        (∃ hc req, ev = EvClientDo hc req
           ∧ (buildRequest c ro s).1 = Returned (Some req, None)
           ∧ Client_client <$> heap s !! c = Some (Some hc))
        ∨ ∃ body, ev = EvReadAll body ∨ ev = EvClose body.
Proof.
  assert (Hquiet : ∀ s0, log s0 = log s →
    ∃ evs, log s0 = log s ++ evs
      ∧ ∀ ev, ev ∈ evs →
          (∃ hc req, ev = EvClientDo hc req
             ∧ (buildRequest c ro s).1 = Returned (Some req, None)
             ∧ Client_client <$> heap s !! c = Some (Some hc))
          ∨ ∃ body, ev = EvReadAll body ∨ ev = EvClose body).
  { intros s0 Hs0. exists []. split; [by rewrite app_nil_r|].
    intros ev Hin. by apply elem_of_nil in Hin. }
  rewrite Do_run.
  pose proof (buildRequest_state c ro s) as Hs.
  destruct (buildRequest c ro s) as [[[rq [e|]]|p] s0] eqn:Hb;
    simpl in *; subst s0; [by apply Hquiet| |by apply Hquiet].
  destruct (Client_client <$> heap s !! c) as [[hc|]|] eqn:Hc;
    [|rewrite doRequest_panics by auto; by apply Hquiet..].
  destruct rq as [req|]; [|rewrite doRequest_panics by auto; by apply Hquiet].
  destruct (heap s !! c) as [cv|] eqn:Hcv; simplify_eq/=.
  rewrite (doRequest_run c cv hc req s Hcv Hc). simpl.
  assert (Hsend : ∃ hc' req', EvClientDo hc req = EvClientDo hc' req'
            ∧ Returned (Some req, @None error) = Returned (Some req', None)
            ∧ Some (Some hc) = Some (Some hc')) by (by exists hc, req).
  assert (Hone : ∀ ev, ev ∈ [EvClientDo hc req] →
            (∃ hc' req', ev = EvClientDo hc' req'
               ∧ Returned (Some req, @None error) = Returned (Some req', None)
               ∧ Some (Some hc) = Some (Some hc'))
            ∨ ∃ body, ev = EvReadAll body ∨ ev = EvClose body).
  { intros ev Hin. apply list_elem_of_singleton in Hin as ->. by left. }
  destruct (RoundTrip hc req (world s)) as [[resp|msg] w]; simpl; [|by eauto].
  destruct (resp_Body resp) as [body|]; simpl; [|by eauto].
  destruct (resp_StatusCode resp =? http_StatusOK)%Z; simpl; [|by eauto].
  exists [EvClientDo hc req; EvReadAll body; EvClose body].
  split; [by destruct (stream_err body)|].
  intros ev Hin. rewrite !elem_of_cons, elem_of_nil in Hin.
  destruct Hin as [->|[->|[->|[]]]]; [by left|right; eauto..].
Qed.

(** A request that was built goes out first thing, through the Client's
    transport. *)
Lemma Do_sends c cv hc (ro : option Request) req response s :
  heap s !! c = Some cv →
  Client_client cv = Some hc →
  buildRequest c ro s = (Returned (Some req, None), s) →
  ∃ rest,
    log (Do c ro response s).2 = log s ++ EvClientDo hc req :: rest
    ∧ world (Do c ro response s).2 = (RoundTrip hc req (world s)).2.
Proof.
  intros Hc Hhc Hb. rewrite Do_run, Hb. simpl.
  rewrite (doRequest_run c cv hc req s Hc Hhc). simpl.
  destruct (RoundTrip hc req (world s)) as [[resp|msg] w]; simpl; [|by eauto].
  destruct (resp_Body resp) as [body|]; simpl; [|by eauto].
  destruct (resp_StatusCode resp =? http_StatusOK)%Z; simpl; [|by eauto].
  destruct (stream_err body); simpl; by eauto.
Qed.

(** X14: what a GET puts on the wire: one request with method GET, the URL
    made of base URL, path and, when there are Values, "?" and their
    encoding, the user-agent header and no other, and no body; it goes
    through the Client's transport before anything else happens. *)
Theorem Do_sends_GET c cv hc r u ua response s :
  heap s !! c = Some cv →
  Client_client cv = Some hc →
  Request_Action r = GET →
  url_Parse
    match Request_Values r with
    | Some v => (Client_baseURL cv +:+ Request_URL r) +:+ "?" +:+ Values_Encode v
    | None => Client_baseURL cv +:+ Request_URL r
    end = inl u →
  GetUserAgent (Client_userAgent cv) = Returned ua →
  let req := {| hreq_Method := "GET"; hreq_URL := u;
                hreq_Header := {["User-Agent" := [ua]]}; hreq_Body := None |} in
  ∃ rest,
    log (Do c (Some r) response s).2 = log s ++ EvClientDo hc req :: rest
    ∧ world (Do c (Some r) response s).2 = (RoundTrip hc req (world s)).2.
Proof.
  intros Hc Hhc Ha Hu Hua req. apply (Do_sends c cv); [done..|].
  rewrite (buildRequest_run c cv r s Hc), templateRequest_GET by done.
  unfold getRequest, http_NewRequest. rewrite Hu, Hua. simpl.
  rewrite Header_Add_fresh by apply lookup_empty.
  by rewrite canonical_user_agent, insert_empty.
Qed.

(** X15: what a POST with Values puts on the wire: one request with method
    POST, the URL made of base URL and path alone, the encoded Values as
    body, and the two headers content-type and user-agent; it goes through
    the Client's transport before anything else happens. *)
Theorem Do_sends_POST c cv hc r v u ua response s :
  heap s !! c = Some cv →
  Client_client cv = Some hc →
  Request_Action r = POST →
  Request_Values r = Some v →
  url_Parse (Client_baseURL cv +:+ Request_URL r) = inl u →
  GetUserAgent (Client_userAgent cv) = Returned ua →
  let req := {| hreq_Method := "POST"; hreq_URL := u;
                hreq_Header :=
                  <["User-Agent" := [ua]]> {["Content-Type" := [contentType]]};
                hreq_Body := Some (Values_Encode v) |} in
  ∃ rest,
    log (Do c (Some r) response s).2 = log s ++ EvClientDo hc req :: rest
    ∧ world (Do c (Some r) response s).2 = (RoundTrip hc req (world s)).2.
Proof.
  intros Hc Hhc Ha Hv Hu Hua req. apply (Do_sends c cv); [done..|].
  rewrite (buildRequest_run c cv r s Hc), templateRequest_POST by done.
  rewrite Hv. unfold postRequest, http_NewRequest. rewrite Hu. simpl.
  rewrite Hua. unfold Header_Set. rewrite canonical_content_type, insert_empty.
  rewrite Header_Add_fresh by (by rewrite canonical_user_agent).
  by rewrite canonical_user_agent.
Qed.

(** X16: [TestClient] reaches neither the token endpoint nor the network: it
    only puts a new Client, with the given transport and base URL and without
    user agent, into the heap.  No [Do] on that Client asks the token endpoint
    either; every round trip it makes goes through the given transport. *)
Theorem TestClient_then_Do (hc : option http_Client) base s :
  let c := length (heap s) in
  let s1 := (TestClient hc base s).2 in
  (TestClient hc base s).1 = Returned c
  ∧ heap s1 = heap s ++ [{| Client_baseURL := base; Client_client := hc;
                            Client_userAgent := None |}]
  ∧ world s1 = world s
  ∧ log s1 = log s
  ∧ ∀ (ro : option Request) response,
      ∃ evs,
        log (Do c ro response s1).2 = log s ++ evs
        ∧ (∀ conf user pass, EvPasswordCredentialsToken conf user pass ∉ evs)
        ∧ ∀ hc' req, EvClientDo hc' req ∈ evs →
            hc = Some hc'
            ∧ (buildRequest c ro s1).1 = Returned (Some req, None).
Proof.
  simpl. do 4 (split; [done|]). intros ro response.
  set (s1 := (TestClient hc base s).2).
  destruct (Do_log (length (heap s)) ro response s1) as (evs & Hlog & Hevs).
  exists evs. split; [done|]. split.
  - intros conf user pass Hin.
    destruct (Hevs _ Hin) as [(? & ? & ? & _)|[? [?|?]]]; done.
  - intros hc' req Hin.
    destruct (Hevs _ Hin) as [(hc0 & req0 & Heq & Hb & Hc)|[? [?|?]]];
      [|done..].
    injection Heq as -> ->. split; [|done].
    revert Hc. subst s1. simpl.
    rewrite lookup_app_r by done. rewrite Nat.sub_diag. simpl. by intros [= ->].
Qed.

End Properties.

(** ** Runs in the concrete world *)

Section Runs.
Import Sample.

Lemma Do_post_without_values_witness :
  Do 0 (Some {| Request_Action := POST; Request_URL := "/submit";
                Request_Values := None |}) "" (Sample.served_by (inr "offline"))
  = (Returned (Some (errorString "no values for POST body"), ""),
     Sample.served_by (inr "offline")).
Proof.
  eapply (Do_post_without_values (J := json) 0); reflexivity.
Defined.

Lemma Do_unknown_action_panics_witness :
  templateRequest (baseURL +:+ "/me")
    {| Request_Action := 2%Z; Request_URL := "/me"; Request_Values := None |}
  = (None, None)
  ∧ buildRequest 0 (Some {| Request_Action := 2%Z; Request_URL := "/me";
                            Request_Values := None |})
      (Sample.served_by (inr "offline"))
    = (Panicked NilDereference, Sample.served_by (inr "offline"))
  ∧ Do 0 (Some {| Request_Action := 2%Z; Request_URL := "/me";
                  Request_Values := None |}) "" (Sample.served_by (inr "offline"))
    = (Panicked NilDereference, Sample.served_by (inr "offline")).
Proof.
  eapply (Do_unknown_action_panics (J := json) 0 (test_client (inr "offline")));
    [reflexivity | discriminate | discriminate].
Defined.

Lemma buildRequest_GET_witness :
  buildRequest 0 (Some search) logged_in
  = (Returned
       (Some {| hreq_Method := "GET";
                hreq_URL := "https://oauth.reddit.com/api/search?limit=5&q=go+lang&q=a%26b&t=all";
                hreq_Header := {["User-Agent" := ["graw:test:0.1"]]};
                hreq_Body := None |}, None), logged_in).
Proof.
  apply (buildRequest_GET (U := url) (D := data) (N := http) 0
           agent_client search logged_in);
    [reflexivity | reflexivity | vm_compute; reflexivity | reflexivity].
Defined.

Lemma buildRequest_POST_witness :
  ∃ req,
    buildRequest 0 (Some submit) logged_in = (Returned (Some req, None), logged_in)
    ∧ hreq_Method req = "POST"
    ∧ hreq_URL req = "https://oauth.reddit.com/api/submit"
    ∧ hreq_Body req = Some "limit=5&q=go+lang&q=a%26b&t=all"
    ∧ hreq_Header req
      = (<["User-Agent" := ["graw:test:0.1"]]> {["Content-Type" := [contentType]]})
    ∧ Header_Get "content-type" (hreq_Header req) = contentType
    ∧ Header_Get "user-agent" (hreq_Header req) = "graw:test:0.1".
Proof.
  assert (He : Encode form = "limit=5&q=go+lang&q=a%26b&t=all")
    by (vm_compute; reflexivity).
  rewrite <- He.
  apply (buildRequest_POST (U := url) (D := data) (N := http) 0
           agent_client submit form logged_in);
    reflexivity.
Defined.

Lemma Do_status_not_ok_witness :
  Do 0 (Some me) "" (served_by (not_found (Some ok_body)))
  = (Returned (Some (errorString ("bad status: " +:+ fmt_int 404 +:+ newline)), ""),
     {| heap := [test_client (not_found (Some ok_body))]; world := 1;
        log := [EvClientDo (not_found (Some ok_body)) me_request] |}).
Proof.
  apply (Do_status_not_ok (J := json) (N := http) 0
           (test_client (not_found (Some ok_body))) (not_found (Some ok_body))
           (Some me) me_request
           {| resp_StatusCode := 404; resp_Body := Some ok_body |} 1 ""
           (served_by (not_found (Some ok_body))));
    [reflexivity | reflexivity | reflexivity | reflexivity | discriminate].
Defined.

(** A 404 without body is reported as an empty body, not as a bad status. *)
Lemma missing_body_hides_bad_status :
  (Do 0 (Some me) "" (served_by (not_found None))).1
  = Returned (Some (errorString "empty response body"), "")
  ∧ (Do 0 (Some me) "" (served_by (not_found None))).1
    ≠ Returned (Some (errorString ("bad status: " +:+ fmt_int 404 +:+ newline)), "").
Proof.
  assert (Hrun : (Do 0 (Some me) "" (served_by (not_found None))).1
                 = Returned (Some (errorString "empty response body"), ""))
    by (vm_compute; reflexivity).
  split; [exact Hrun|]. rewrite Hrun. discriminate.
Qed.

Lemma Do_status_ok_no_body_witness :
  Do 0 (Some me) "" (served_by (found None))
  = (Returned (Some (errorString "empty response body"), ""),
     {| heap := [test_client (found None)]; world := 1;
        log := [EvClientDo (found None) me_request] |}).
Proof.
  apply (Do_status_ok_no_body (J := json) (N := http) 0
           (test_client (found None)) (found None) (Some me) me_request
           {| resp_StatusCode := 200; resp_Body := None |} 1 ""
           (served_by (found None)));
    reflexivity.
Defined.

(** A 200 whose body is there and yields no bytes ends in the decoder. *)
Lemma zero_bytes_reach_decoder :
  (Do 0 (Some me) "" (served_by (found (Some no_bytes)))).1
  = Returned (Some (UnmarshalError "unexpected end of JSON input"), "")
  ∧ (Do 0 (Some me) "" (served_by (found (Some no_bytes)))).1
    ≠ Returned (Some (errorString "empty response body"), "").
Proof.
  assert (Hrun : (Do 0 (Some me) "" (served_by (found (Some no_bytes)))).1
                 = Returned (Some (UnmarshalError "unexpected end of JSON input"), ""))
    by (vm_compute; reflexivity).
  split; [exact Hrun|]. rewrite Hrun. discriminate.
Qed.

(** C5 at a 404 with a body: [Do] returns the "bad status" error after the
    round trip and the body is neither read nor closed; the log of the call
    holds the round trip alone. *)
Theorem bad_status_leaves_body_open :
  let s' := (Do 0 (Some me) "" (served_by (not_found (Some ok_body)))).2 in
  (Do 0 (Some me) "" (served_by (not_found (Some ok_body)))).1
  = Returned (Some (errorString ("bad status: 404" +:+ newline)), "")
  ∧ log s' = [EvClientDo (not_found (Some ok_body)) me_request]
  ∧ (EvReadAll ok_body ∉ log s')
  ∧ (EvClose ok_body ∉ log s').
Proof.
  intros s'.
  assert (Hlog : log s' = [EvClientDo (not_found (Some ok_body)) me_request])
    by reflexivity.
  split; [vm_compute; reflexivity|]. split; [exact Hlog|].
  rewrite Hlog. split; intros Hin; apply list_elem_of_singleton in Hin; discriminate.
Qed.

Lemma NewClient_token_failure_witness :
  ∃ c s',
    NewClient (Some stranger) empty_state
    = (Returned (c, Some (TokenError "oauth2: cannot fetch token: 401 Unauthorized")), s')
    ∧ Client_client <$> heap s' !! c = Some None
    ∧ ∀ s2 (ro : option Request) response,
        heap s2 !! c = heap s' !! c →
        (Do c ro response s2).2 = s2
        ∧ ∀ v, (Do c ro response s2).1 ≠ Returned (None, v).
Proof.
  apply (NewClient_token_failure (D := data) (J := json) (O := oauth2)
           (Some stranger) "id" "secret" "bot" "guess"
           "oauth2: cannot fetch token: 401 Unauthorized" 1 empty_state);
    reflexivity.
Defined.

Lemma NewClient_failure_nil_transport_witness :
  (NewClient (Some stranger) empty_state).1
  = Returned (0, Some (TokenError "oauth2: cannot fetch token: 401 Unauthorized"))
  ∧ heap turned_down !! 0
    = Some {| Client_baseURL := baseURL; Client_client := None;
              Client_userAgent := Some stranger |}
  ∧ ∀ s2 (ro : option Request) (rq : option http_Request) response,
      heap s2 !! 0 = heap turned_down !! 0 →
      buildRequest 0 ro s2 = (Returned (rq, None), s2) →
      Do 0 ro response s2 = (Panicked NilDereference, s2).
Proof.
  apply (NewClient_failure_nil_transport (D := data) (J := json) (O := oauth2)
           (Some stranger) "id" "secret" "bot" "guess"
           "oauth2: cannot fetch token: 401 Unauthorized" 1 empty_state);
    reflexivity.
Defined.

(** After a login that failed, a POST without Values still gets its error
    back: this [Do] returns and does not dereference nil. *)
Lemma post_without_values_after_failed_login :
  (NewClient (Some stranger) empty_state).1
  = Returned (0, Some (TokenError "oauth2: cannot fetch token: 401 Unauthorized"))
  ∧ Do 0 (Some submit_nothing) "" turned_down
    = (Returned (Some (errorString "no values for POST body"), ""), turned_down)
  ∧ (Do 0 (Some submit_nothing) "" turned_down).1 ≠ Panicked NilDereference.
Proof.
  assert (Hrun : Do 0 (Some submit_nothing) "" turned_down
                 = (Returned (Some (errorString "no values for POST body"), ""),
                    turned_down))
    by reflexivity.
  split; [reflexivity|]. split; [exact Hrun|]. rewrite Hrun. discriminate.
Qed.

Lemma Do_transport_error_witness :
  Do 0 (Some me) "" (served_by offline)
  = (Returned (Some (ClientDoError "dial tcp: connection refused"), ""),
     {| heap := [test_client offline]; world := 1;
        log := [EvClientDo offline me_request] |}).
Proof.
  apply (Do_transport_error (J := json) (N := http) 0 (test_client offline)
           offline (Some me) me_request "dial tcp: connection refused" 1 ""
           (served_by offline));
    reflexivity.
Defined.

Lemma Do_decodes_body_witness :
  Do 0 (Some me) "" (served_by (found (Some ok_body)))
  = (Returned (None, "{}"),
     {| heap := [test_client (found (Some ok_body))]; world := 1;
        log := [EvClientDo (found (Some ok_body)) me_request;
                EvReadAll ok_body; EvClose ok_body] |}).
Proof.
  apply (Do_decodes_body (J := json) (N := http) 0
           (test_client (found (Some ok_body))) (found (Some ok_body))
           (Some me) me_request
           {| resp_StatusCode := 200; resp_Body := Some ok_body |} ok_body 1 "" "{}"
           (served_by (found (Some ok_body))));
    reflexivity.
Defined.

Lemma Do_read_error_witness :
  Do 0 (Some me) "" (served_by (found (Some broken_body)))
  = (Returned
       (Some (errorString "reading response body failed: unexpected EOF"), ""),
     {| heap := [test_client (found (Some broken_body))]; world := 1;
        log := [EvClientDo (found (Some broken_body)) me_request;
                EvReadAll broken_body; EvClose broken_body] |}).
Proof.
  apply (Do_read_error (J := json) (N := http) 0
           (test_client (found (Some broken_body))) (found (Some broken_body))
           (Some me) me_request
           {| resp_StatusCode := 200; resp_Body := Some broken_body |} broken_body
           "unexpected EOF" 1 "" (served_by (found (Some broken_body))));
    reflexivity.
Defined.

Lemma Do_url_rejected_witness :
  Do 0 (Some bad_path) "" (served_by offline)
  = (Returned (Some (NewRequestError "net/url: invalid control character in URL"), ""),
     served_by offline).
Proof.
  apply (Do_url_rejected (J := json) (N := http) 0 (test_client offline) bad_path
           "net/url: invalid control character in URL" "" (served_by offline));
    [reflexivity | left; split; [reflexivity | vm_compute; reflexivity]].
Defined.

Lemma Do_nil_inputs_witness :
  Do 0 None "" (served_by offline) = (Panicked NilDereference, served_by offline).
Proof.
  apply (Do_nil_inputs (J := json) (N := http) 0 None "" (served_by offline)).
  right. reflexivity.
Defined.

Lemma Do_target_untouched_witness :
  (Do 0 (Some me) "before" (served_by offline)).1
  = Returned (Some (ClientDoError "dial tcp: connection refused"), "before")
  ∧ "before" = "before".
Proof.
  assert (Hrun : (Do 0 (Some me) "before" (served_by offline)).1
                 = Returned (Some (ClientDoError "dial tcp: connection refused"),
                             "before"))
    by (vm_compute; reflexivity).
  split; [exact Hrun|].
  apply (Do_target_untouched (J := json) (N := http) 0 (Some me) "before"
           (ClientDoError "dial tcp: connection refused") "before"
           (served_by offline) Hrun).
  discriminate.
Defined.

Lemma Do_error_kinds_witness :
  "bad status: 404" +:+ newline = "no values for POST body"
  ∨ "bad status: 404" +:+ newline = "empty response body"
  ∨ (∃ code, code ≠ http_StatusOK
       ∧ "bad status: 404" +:+ newline = "bad status: " +:+ fmt_int code +:+ newline)
  ∨ (∃ msg, "bad status: 404" +:+ newline = "reading response body failed: " +:+ msg).
Proof.
  apply (Do_error_kinds (J := json) (N := http) 0 (Some me) ""
           (errorString ("bad status: 404" +:+ newline)) ""
           (served_by (not_found (Some ok_body)))).
  vm_compute. reflexivity.
Defined.

Lemma Do_never_panics_witness :
  ∃ res, (Do 0 (Some me) "" (served_by offline)).1 = Returned res.
Proof.
  apply (Do_never_panics (J := json) (N := http) 0 (test_client offline) offline
           me "" "" (served_by offline));
    [reflexivity | reflexivity | left; reflexivity | reflexivity].
Defined.

Lemma Do_success_means_witness :
  ∃ cv hc req resp body,
    heap (served_by (found (Some ok_body))) !! 0 = Some cv
    ∧ Client_client cv = Some hc
    ∧ buildRequest 0 (Some me) (served_by (found (Some ok_body)))
      = (Returned (Some req, None), served_by (found (Some ok_body)))
    ∧ RoundTrip hc req 0 = (inl resp, 1)
    ∧ resp_StatusCode resp = http_StatusOK
    ∧ resp_Body resp = Some body
    ∧ stream_err body = None
    ∧ json_Unmarshal (stream_data body) "" = (None, "{}")
    ∧ [test_client (found (Some ok_body))] = heap (served_by (found (Some ok_body)))
    ∧ [EvClientDo (found (Some ok_body)) me_request; EvReadAll ok_body; EvClose ok_body]
      = [] ++ [EvClientDo hc req; EvReadAll body; EvClose body].
Proof.
  apply (Do_success_means (J := json) (N := http) 0 (Some me) "" "{}"
           (served_by (found (Some ok_body))) answered).
  reflexivity.
Defined.

Lemma oauth_effect_witness :
  oauth 0 authURL (served_by offline)
  = (Returned (Some (TokenError "oauth2: cannot fetch token: 401 Unauthorized")),
     {| heap := [test_client offline]; world := 1;
        log := [EvPasswordCredentialsToken
                  {| ClientID := ""; ClientSecret := "";
                     Endpoint := {| TokenURL := authURL |} |} "" ""] |}).
Proof.
  apply (oauth_effect (D := data) (O := oauth2) 0 (test_client offline) authURL
           "" "" "" "" (inr "oauth2: cannot fetch token: 401 Unauthorized") 1
           (served_by offline));
    reflexivity.
Defined.

Lemma NewClient_then_Do_witness :
  (NewClient (Some agent) empty_state).1 = Returned (0, None)
  ∧ heap logged_in = [] ++ [agent_client]
  ∧ log logged_in
    = [] ++ [EvPasswordCredentialsToken
               {| ClientID := "id"; ClientSecret := "secret";
                  Endpoint := {| TokenURL := authURL |} |} "bot" "hunter2"]
  ∧ ∀ (ro : option Request) req response,
      buildRequest 0 ro logged_in = (Returned (Some req, None), logged_in) →
      ∃ rest,
        log (Do 0 ro response logged_in).2
        = [] ++ EvPasswordCredentialsToken
                  {| ClientID := "id"; ClientSecret := "secret";
                     Endpoint := {| TokenURL := authURL |} |} "bot" "hunter2"
            :: EvClientDo token_transport req :: rest
        ∧ world (Do 0 ro response logged_in).2
          = (RoundTrip token_transport req 1).2.
Proof.
  apply (NewClient_then_Do (D := data) (J := json) (O := oauth2) (Some agent)
           "id" "secret" "bot" "hunter2" "token" 1 empty_state);
    reflexivity.
Defined.

Lemma Do_sends_GET_witness :
  ∃ rest,
    log (Do 0 (Some search) "" logged_in).2
    = log logged_in
      ++ EvClientDo (found (Some ok_body))
           {| hreq_Method := "GET";
              hreq_URL := "https://oauth.reddit.com/api/search?limit=5&q=go+lang&q=a%26b&t=all";
              hreq_Header := {["User-Agent" := ["graw:test:0.1"]]};
              hreq_Body := None |} :: rest
    ∧ world (Do 0 (Some search) "" logged_in).2 = 2.
Proof.
  apply (Do_sends_GET (D := data) (J := json) (N := http) 0 agent_client
           (found (Some ok_body)) search
           "https://oauth.reddit.com/api/search?limit=5&q=go+lang&q=a%26b&t=all"
           "graw:test:0.1" "" logged_in);
    [reflexivity | reflexivity | reflexivity | vm_compute; reflexivity | reflexivity].
Defined.

Lemma Do_sends_POST_witness :
  ∃ rest,
    log (Do 0 (Some submit) "" logged_in).2
    = log logged_in
      ++ EvClientDo (found (Some ok_body))
           {| hreq_Method := "POST";
              hreq_URL := "https://oauth.reddit.com/api/submit";
              hreq_Header :=
                <["User-Agent" := ["graw:test:0.1"]]>
                  {["Content-Type" := [contentType]]};
              hreq_Body := Some (Encode form) |} :: rest
    ∧ world (Do 0 (Some submit) "" logged_in).2 = 2.
Proof.
  apply (Do_sends_POST (D := data) (J := json) (N := http) 0 agent_client
           (found (Some ok_body)) submit form
           "https://oauth.reddit.com/api/submit" "graw:test:0.1" "" logged_in);
    reflexivity.
Defined.

End Runs.
